(** * minervaOS provisioning: a shallow embedding of the provisioning code

    The development follows the Go sources package by package:

    - [Go]          the pieces of the Go runtime the code relies on
                    (fixed-width integers, [time], [sort.Slice]);
    - [Gridtypes]   the workload types shared by the daemon's packages;
    - [Provisiond]  cmds/modules/provisiond/main.go;
    - [Reporter]    cmds/modules/provisiond/reported.go;
    - [Explorer]    pkg/provision/explorer/source.go;
    - [Types]       tools/explorer/pkg/workloads/types/reservation.go;
    - [Identity]    the identity package (key pairs and seed files);
    - [Provision]   modules/provision: container provisioning;
    - [Backoff]     the retry library, github.com/cenkalti/backoff/v3;
    - [Zdb]         modules/provision: the 0-db container.

    Go's [(value, error)] results are kept as they are where the code
    returns both, and as a sum type where only one of them is meaningful.
    The definitions come first, the theorems after them. *)

From Stdlib Require Import ZArith QArith Qround Lqa List Bool Lia Permutation Sorted.
From stdpp Require Import base gmap strings list pretty sorting.

Set Warnings "-clear-no-such-hyp".

Close Scope Q_scope.
Local Open Scope Z_scope.

(** ** Go runtime *)

Module Go.

(** Go's [error] values; only the message is relevant here. *)
Definition error := string.

(** A call that returns [(T, error)] with a meaningless [T] on error. *)
Inductive result (A : Type) : Type :=
  | Ok (a : A)
  | Err (e : error).
Arguments Ok {A} a.
Arguments Err {A} e.

Definition is_ok {A} (r : result A) : bool :=
  match r with Ok _ => true | Err _ => false end.

Definition is_err {A} (r : result A) : bool := negb (is_ok r).

(** [uint64] and [int64] values are integers in their range; arithmetic
    wraps around. *)
Definition uint64_mod : Z := 2 ^ 64.
Definition uint64 (z : Z) : Z := z mod uint64_mod.
Definition is_uint64 (z : Z) : Prop := 0 <= z < uint64_mod.

Definition maxInt64 : Z := 2 ^ 63 - 1.
Definition minInt64 : Z := - 2 ^ 63.

(** *** package time

    A [Time] without monotonic reading is an instant, counted here in
    nanoseconds; a [Duration] is an [int64] count of nanoseconds. *)
Definition Time := Z.
Definition Duration := Z.

Definition Millisecond : Duration := 1000000.
Definition Second : Duration := 1000 * Millisecond.
Definition Minute : Duration := 60 * Second.

Definition maxDuration : Duration := maxInt64.
Definition minDuration : Duration := minInt64.

Definition Before (t u : Time) : bool := t <? u.

(** [t.Sub(u)]: the difference, or the extreme duration when the
    difference does not fit an [int64]. *)
Definition Sub (t u : Time) : Duration :=
  let d := t - u in
  if (minDuration <=? d) && (d <=? maxDuration) then d
  else if Before t u then minDuration
  else maxDuration.

(** [time.Until(t)] with the clock reading [now]. *)
Definition Until (now t : Time) : Duration := Sub t now.

(** *** package sort

    [insertionSort]: every element in turn is swapped towards the front
    for as long as it is less than its left neighbour.  The sorted prefix
    is kept reversed, nearest neighbour first. *)
Fixpoint insert_back {A} (less : A -> A -> bool) (x : A) (prefix : list A)
  : list A :=
  match prefix with
  | [] => [x]
  | y :: prefix' =>
      if less x y then y :: insert_back less x prefix' else x :: prefix
  end.

Definition insertionSort {A} (less : A -> A -> bool) (l : list A) : list A :=
  rev (fold_left (fun prefix x => insert_back less x prefix) l []).

Section SortSlice.

(** What [sort.Slice] runs on longer slices (quicksort, heapsort): it is
    left open here, and so is the order it gives to equal elements. *)
Variable quickSort : forall A : Type, (A -> A -> bool) -> list A -> list A.

(** [sort.Slice]: slices of fewer than 7 elements are sorted by insertion
    alone in every release of the library. *)
Definition sort_Slice {A} (less : A -> A -> bool) (l : list A) : list A :=
  if (length l <=? 6)%nat then insertionSort less l
  else quickSort A less l.

End SortSlice.

End Go.

Import Go.

(** ** pkg/gridtypes

    The declarations of [gridtypes] and [zos] are outside the sources at
    hand; what the daemon's code reads of them is set down here. *)

Module Gridtypes.

Definition ID := string.

(** Modelled from the spec: the workload kinds ([zos.NetworkType],
    [zos.VolumeType], [zos.PublicIPType], ...) are the closed set of the
    spec's data model: network_resource, volume, public_ip, container,
    virtual_machine, zero_db_namespace. *)
Inductive WorkloadType :=
| NetworkType | VolumeType | PublicIPType
| ContainerType | ZMachineType | ZDBType.

#[global] Instance WorkloadType_eq_dec : EqDecision WorkloadType.
Proof. solve_decision. Defined.

Definition WorkloadType_to_nat (t : WorkloadType) : nat :=
  match t with
  | NetworkType => 0 | VolumeType => 1 | PublicIPType => 2
  | ContainerType => 3 | ZMachineType => 4 | ZDBType => 5
  end%nat.

Definition WorkloadType_of_nat (n : nat) : WorkloadType :=
  match n with
  | 0 => NetworkType | 1 => VolumeType | 2 => PublicIPType
  | 3 => ContainerType | 4 => ZMachineType | _ => ZDBType
  end%nat.

#[global] Instance WorkloadType_countable : Countable WorkloadType.
Proof.
  apply (inj_countable' WorkloadType_to_nat WorkloadType_of_nat).
  by intros [].
Defined.

(** Modelled from the spec: a workload type prints as the spec names it. *)
Definition WorkloadType_String (t : WorkloadType) : string :=
  match t with
  | NetworkType => "network_resource" | VolumeType => "volume"
  | PublicIPType => "public_ip" | ContainerType => "container"
  | ZMachineType => "virtual_machine" | ZDBType => "zero_db_namespace"
  end.

(** Modelled from the spec: the states of a result are unknown, ok, error
    and deleted ([gridtypes.StateOk] and [gridtypes.StateDeleted] are the
    two the reporter names). *)
Inductive ResultState := StateUnknown | StateOk | StateError | StateDeleted.

#[global] Instance ResultState_eq_dec : EqDecision ResultState.
Proof. solve_decision. Defined.

(** A [Timestamp] counts seconds since the epoch; [Timestamp.Time()]. *)
Definition Timestamp := Z.
Definition Timestamp_Time (t : Timestamp) : Time := t * Second.

(** Modelled from the spec: a result has a state and a creation time;
    [IsNil] holds what the method of that name answers. *)
Record Result := {
  State : ResultState;
  Created : Timestamp;
  IsNil : bool
}.

(** Modelled from the spec: the capacity tuple (cru, sru, hru, mru,
    ipv4u), each a [uint64]. *)
Record Capacity := { CRU : Z; SRU : Z; HRU : Z; MRU : Z; IPV4U : Z }.

Definition zeroCapacity : Capacity :=
  {| CRU := 0; SRU := 0; HRU := 0; MRU := 0; IPV4U := 0 |}.

(** Modelled from the spec: [Capacity.Add] adds field by field, on
    [uint64]. *)
Definition Capacity_Add (c o : Capacity) : Capacity :=
  {| CRU := uint64 (CRU c + CRU o);
     SRU := uint64 (SRU c + SRU o);
     HRU := uint64 (HRU c + HRU o);
     MRU := uint64 (MRU c + MRU o);
     IPV4U := uint64 (IPV4U c + IPV4U o) |}.

(** Modelled from the spec: a stored workload has a type, the to_delete
    flag and a result; [wlCapacity] holds what the method [Capacity()]
    answers. *)
Record Workload := {
  Type_ : WorkloadType;
  ToDelete : bool;
  Result_ : Result;
  wlCapacity : result Capacity
}.

End Gridtypes.

(** ** cmds/modules/provisiond *)

Module Provisiond.

Import Gridtypes.

(** *** main.go: the node's own reservation *)

Definition gib : Z := 1024 * 1024 * 1024.

Definition DeviceType := string.

(** [pkg.Usage] and the part of [pkg.Filesystem] read by the daemon. *)
Record Usage := { Size : Z; Used : Z }.
Record Filesystem := { DiskType : DeviceType; FsUsage : Usage }.

(** Modelled from the spec: [primitives.Counters] is declared outside the
    sources at hand; its resource counters are the capacity tuple of the
    spec (cru, mru, hru, sru, ipv4u), each an atomic [uint64]. *)
Record Counters := { CRU : Z; MRU : Z; HRU : Z; SRU : Z; IPV4U : Z }.

Definition zeroCounters : Counters :=
  {| CRU := 0; MRU := 0; HRU := 0; SRU := 0; IPV4U := 0 |}.

(** [AtomicValue.Increment]: an atomic add on a [uint64]. *)
Definition Increment (v n : Z) : Z := uint64 (v + n).

Definition incHRU (c : Counters) (n : Z) : Counters :=
  {| CRU := CRU c; MRU := MRU c; HRU := Increment (HRU c) n;
     SRU := SRU c; IPV4U := IPV4U c |}.
Definition incSRU (c : Counters) (n : Z) : Counters :=
  {| CRU := CRU c; MRU := MRU c; HRU := HRU c;
     SRU := Increment (SRU c) n; IPV4U := IPV4U c |}.
Definition incMRU (c : Counters) (n : Z) : Counters :=
  {| CRU := CRU c; MRU := Increment (MRU c) n; HRU := HRU c;
     SRU := SRU c; IPV4U := IPV4U c |}.

Section NodeReserved.

(** The two device types come from the [zos] package. *)
Variables HDDDevice SSDDevice : DeviceType.

(** [getNodeReserved]; the argument is what [storage.GetCacheFS()]
    answered.  The named results [(counter, err)] are returned
    together, as in the source. *)
Definition getNodeReserved (cache : result Filesystem)
  : Counters * option error :=
  let counter := zeroCounters in
  match cache with
  | Err err => (counter, Some err)
  | Ok fs =>
      if decide (DiskType fs = HDDDevice) then
        let counter := incHRU counter (Size (FsUsage fs) / gib) in
        (incMRU counter 2, None)
      else if decide (DiskType fs = SSDDevice) then
        let counter := incSRU counter (Size (FsUsage fs) / gib) in
        (incMRU counter 2, None)
      else
        (counter, Some ("unknown cache disk type '" +:+ DiskType fs +:+ "'"))
  end.

End NodeReserved.

(** *** main.go: the daemon's entry point [action]

    The engine is built from options; each [provision.WithX] sets one
    field of the engine's configuration and [provision.New] applies the
    options it is given from left to right. *)
Record EngineConfig := {
  twins : option string;
  admins : option string;
  order : list WorkloadType;
  rerunAll : bool
}.

Definition Opt := EngineConfig -> EngineConfig.

Definition WithTwins (u : string) : Opt := fun e =>
  {| twins := Some u; admins := admins e; order := order e;
     rerunAll := rerunAll e |}.
Definition WithAdmins (a : string) : Opt := fun e =>
  {| twins := twins e; admins := Some a; order := order e;
     rerunAll := rerunAll e |}.
Definition WithStartupOrder (t : list WorkloadType) : Opt := fun e =>
  {| twins := twins e; admins := admins e; order := t;
     rerunAll := rerunAll e |}.
Definition WithRerunAll (b : bool) : Opt := fun e =>
  {| twins := twins e; admins := admins e; order := order e;
     rerunAll := b |}.

Definition provision_New (opts : list Opt) : EngineConfig :=
  fold_left (fun e o => o e) opts
    {| twins := None; admins := None; order := []; rerunAll := false |}.

(** The options [action] passes to [provision.New]. *)
Definition engineOptions (users admins : string) (firstBoot : bool)
  : list Opt :=
  [ WithTwins users;
    WithAdmins admins;
    WithStartupOrder [VolumeType; NetworkType; PublicIPType];
    WithRerunAll firstBoot ].

(** What [action] does that is visible outside of it, in program order. *)
Inductive Goroutine := EngineRun | ReporterRun | ServerRun.

Inductive Event :=
| EvMkdirAll (dir : string)
| EvEnvironmentGet
| EvNewRedisServer
| EvNewRedisClient
| EvNetworkReady
| EvNewFSStore (dir : string)
| EvNewPrimitivesProvisioner
| EvGetNodeReserved
| EvCapacityTotal
| EvNewStatistics
| EvNewStatisticsAPI
| EvNewSubstrateTwins
| EvNewSubstrateAdmins
| EvProvisionNew (cfg : EngineConfig)
| EvRegister
| EvRuntimeUpgrade
| EvGo (g : Goroutine)
| EvMarkBooted
| EvNewReported
| EvSetupAPIs
| EvListenAndServe.

(** How a run of [action] ends: it goes on, it returns, or it never
    returns ([select {}], or a wait that is never satisfied). *)
Inductive Outcome (A : Type) :=
| Continue (a : A)
| Return (e : option error)
| Block.
Arguments Continue {A} a.
Arguments Return {A} e.
Arguments Block {A}.

Definition M (A : Type) : Type := list Event * Outcome A.

Definition ret {A} (a : A) : M A := ([], Continue a).

Definition bind {A B} (m : M A) (f : A -> M B) : M B :=
  match m with
  | (t, Continue a) => let '(t', o) := f a in (t ++ t', o)
  | (t, Return e) => (t, Return e)
  | (t, Block) => (t, Block)
  end.

Notation "x <- m ;; k" := (bind m (fun x => k))
  (at level 100, m at next level, right associativity).
Notation "m ;;; k" := (bind m (fun _ => k))
  (at level 100, right associativity).

Definition emit (e : Event) : M unit := ([e], Continue tt).
Definition returnErr {A} (e : error) : M A := ([], Return (Some e)).
Definition returnNil {A} : M A := ([], Return None).
Definition block {A} : M A := ([], Block).

(** [errors.Wrap(err, msg)] *)
Definition Wrap (e : error) (msg : string) : error := msg +:+ ": " +:+ e.

(** [if err != nil { return errors.Wrap(err, msg) }] *)
Definition check (r : option error) (msg : string) : M unit :=
  match r with
  | Some e => returnErr (Wrap e msg)
  | None => ret tt
  end.

Definition checked {A} (r : result A) (msg : string) : M A :=
  match r with
  | Err e => returnErr (Wrap e msg)
  | Ok a => ret a
  end.

(** What the node and the other daemons answer during one run. *)
Record Environment := { Orphan : bool; SubstrateURL : string }.

Record World := {
  rootDir : string;
  limitedCacheClears : bool;
  mkdirRoot : option error;
  environmentGet : result Environment;
  newRedisServer : option error;
  newRedisClient : option error;
  networkBecomesReady : bool;
  newFSStore : option error;
  nodeReserved : option error;
  capacityTotal : option error;
  newStatisticsAPI : option error;
  newSubstrateTwins : result string;
  newSubstrateAdmins : result string;
  mkdirQueues : option error;
  isFirstBoot : bool;
  provisionNew : option error;
  markBooted : option error;
  newReported : option error;
  setupAPIs : option error;
  listenAndServe : option error
}.

Definition filepath_Join (a b : string) : string := a +:+ "/" +:+ b.

Definition action (w : World) : M unit :=
  (* keep checking if limited-cache flag is set *)
  (if limitedCacheClears w then ret tt else block) ;;;
  emit (EvMkdirAll (rootDir w)) ;;;
  check (mkdirRoot w) "failed to create cache directory" ;;;
  emit EvEnvironmentGet ;;;
  env <- checked (environmentGet w) "failed to parse node environment" ;;
  (if Orphan env then block else ret tt) ;;;
  emit EvNewRedisServer ;;;
  check (newRedisServer w) "failed to connect to message broker" ;;;
  emit EvNewRedisClient ;;;
  check (newRedisClient w) "fail to connect to message broker server" ;;;
  (* block until networkd is ready; MaxElapsedTime = 0 *)
  emit EvNetworkReady ;;;
  (if networkBecomesReady w then ret tt else block) ;;;
  emit (EvNewFSStore (filepath_Join (rootDir w) "workloads")) ;;;
  check (newFSStore w) "failed to create local reservation store" ;;;
  emit EvNewPrimitivesProvisioner ;;;
  emit EvGetNodeReserved ;;;
  check (nodeReserved w) "failed to get node reserved capacity" ;;;
  emit EvCapacityTotal ;;;
  check (capacityTotal w) "failed to get node capacity" ;;;
  emit EvNewStatistics ;;;
  emit EvNewStatisticsAPI ;;;
  check (newStatisticsAPI w) "failed to create statistics api" ;;;
  emit EvNewSubstrateTwins ;;;
  users <- checked (newSubstrateTwins w)
             "failed to create substrate users database" ;;
  emit EvNewSubstrateAdmins ;;;
  adm <- checked (newSubstrateAdmins w)
           "failed to create substrate admins database" ;;
  emit (EvMkdirAll (filepath_Join (rootDir w) "queues")) ;;;
  check (mkdirQueues w) "failed to create storage for queues" ;;;
  emit (EvProvisionNew
          (provision_New (engineOptions users adm (isFirstBoot w)))) ;;;
  check (provisionNew w) "failed to instantiate provision engine" ;;;
  emit EvRegister ;;;
  (* call the runtime upgrade before running engine *)
  emit EvRuntimeUpgrade ;;;
  (* spawn the engine *)
  emit (EvGo EngineRun) ;;;
  emit EvMarkBooted ;;;
  emit EvNewReported ;;;
  check (newReported w) "failed to setup capacity reporter" ;;;
  emit (EvGo ReporterRun) ;;;
  emit (EvGo ServerRun) ;;;
  emit EvSetupAPIs ;;;
  check (setupAPIs w) "failed to initialize API" ;;;
  emit EvListenAndServe ;;;
  check (listenAndServe w) "http api exited unexpectedely" ;;;
  returnNil.

Definition trace (w : World) : list Event := fst (action w).

(** The engine configuration a run hands to [provision.New], if it gets
    that far. *)
Fixpoint configured (t : list Event) : option EngineConfig :=
  match t with
  | [] => None
  | EvProvisionNew c :: _ => Some c
  | _ :: t => configured t
  end.

(** A boot on which every step succeeds. *)
Definition bootWorld : World := {|
  rootDir := "/var/cache/modules/provisiond";
  limitedCacheClears := true;
  mkdirRoot := None;
  environmentGet := Ok {| Orphan := false; SubstrateURL := "wss://tfchain" |};
  newRedisServer := None;
  newRedisClient := None;
  networkBecomesReady := true;
  newFSStore := None;
  nodeReserved := None;
  capacityTotal := None;
  newStatisticsAPI := None;
  newSubstrateTwins := Ok "twins";
  newSubstrateAdmins := Ok "admins";
  mkdirQueues := None;
  isFirstBoot := true;
  provisionNew := None;
  markBooted := None;
  newReported := None;
  setupAPIs := None;
  listenAndServe := None
|}.

End Provisiond.

(** ** cmds/modules/provisiond/reported.go *)

Module Reporter.

Import Gridtypes.

Definition every : Z := 5 * 60.

(** [many]: the errors met on the way. *)
Definition many := list error.

Definition newline : string := String (Ascii.ascii_of_nat 10) EmptyString.

Definition many_Error (m : many) : string :=
  fold_left
    (fun buf err =>
       (if (0 <? Z.of_nat (String.length buf)) then buf +:+ newline else buf)
       +:+ err)
    m EmptyString.

Definition many_append (m : many) (err : error) : many := m ++ [err].

Definition AsError (m : many) : option error :=
  match m with
  | [] => None
  | _ => Some (many_Error m)
  end.

Definition Wrapf (err : error) (msg : string) : error := msg +:+ ": " +:+ err.

Record Consumption := {
  Workloads : gmap WorkloadType Z;
  Capacity_ : Capacity
}.

(** The part of [storage.Fs] the reporter calls. *)
Record Fs := {
  Users : result (list ID);
  ByUser : ID -> WorkloadType -> result (list ID);
  Get : ID -> result Workload
}.

Definition shouldCount (since : Time) (result : Result) : bool :=
  if decide (State result = StateOk) then true
  else if decide (State result = StateDeleted) then
    (* if it was stopped before the 'since' *)
    if Before (Timestamp_Time (Created result)) since then false
    else true
  else false.

(** [consumption.Workloads[typ]++] *)
Definition count_up (typ : WorkloadType) (c : gmap WorkloadType Z)
  : gmap WorkloadType Z :=
  <[typ := uint64 (default 0 (c !! typ) + 1)]> c.

(** The body of the loop over the ids of one type. *)
Definition user_id (storage : Fs) (since : Time) (typ : WorkloadType)
    (acc : Consumption * many) (id : ID) : Consumption * many :=
  let '(consumption, m) := acc in
  match Get storage id with
  | Err err =>
      (consumption,
       many_append m (Wrapf err ("failed to get reservation '" +:+ id +:+ "'")))
  | Ok wl =>
      if IsNil (Result_ wl) then (consumption, m)
      else if shouldCount since (Result_ wl) then
        match wlCapacity wl with
        | Err err =>
            (consumption,
             many_append m
               (Wrapf err
                  ("failed to get reservation '" +:+ id +:+ "' capacity")))
        | Ok cap =>
            ({| Workloads := count_up typ (Workloads consumption);
                Capacity_ := Capacity_Add (Capacity_ consumption) cap |}, m)
        end
      else (consumption, m)
  end.

(** The body of the loop over the types. *)
Definition user_type (storage : Fs) (since : Time) (user : ID)
    (acc : Consumption * many) (typ : WorkloadType) : Consumption * many :=
  let '(consumption, m) := acc in
  let consumption :=
    {| Workloads := <[typ := 0]> (Workloads consumption);
       Capacity_ := Capacity_ consumption |} in
  match ByUser storage user typ with
  | Err err =>
      (consumption,
       many_append m
         (Wrapf err ("failed to get reservation for user '" +:+ user
                     +:+ "' type '" +:+ WorkloadType_String typ)))
  | Ok ids => fold_left (user_id storage since typ) ids (consumption, m)
  end.

(** [Reporter.user]; [types] is [gridtypes.Types()]. *)
Definition user (storage : Fs) (types : list WorkloadType)
    (since : Time) (user : ID) : Consumption * option error :=
  let '(consumption, m) :=
    fold_left (user_type storage since user) types
      ({| Workloads := ∅; Capacity_ := zeroCapacity |}, []) in
  (consumption, AsError m).

(** *** What the reporter charges, said declaratively *)

(** The workloads of a user the store can hand out, in the order the
    reporter visits them. *)
Definition stored (storage : Fs) (types : list WorkloadType) (user : ID)
  : list Workload :=
  flat_map
    (fun typ =>
       match ByUser storage user typ with
       | Err _ => []
       | Ok ids =>
           omap (fun id => match Get storage id with
                           | Ok wl => Some wl
                           | Err _ => None
                           end) ids
       end) types.

(** A workload counts when it has a result that is ok, or that is deleted
    but not before [since]. *)
Definition counted (since : Time) (wl : Workload) : bool :=
  negb (IsNil (Result_ wl))
  && (bool_decide (State (Result_ wl) = StateOk)
      || (bool_decide (State (Result_ wl) = StateDeleted)
          && (since <=? Timestamp_Time (Created (Result_ wl))))).

Definition capacities (wls : list Workload) : list Capacity :=
  omap (fun wl => match wlCapacity wl with
                  | Ok c => Some c
                  | Err _ => None
                  end) wls.



(** A store with one workload, deleted in the current slot. *)
Definition deletedInSlot : Workload := {|
  Type_ := ContainerType;
  ToDelete := true;
  Result_ := {| State := StateDeleted; Created := 600; IsNil := false |};
  wlCapacity :=
    Ok {| CRU := 1; SRU := 0; HRU := 0; MRU := 1024; IPV4U := 0 |}
|}.


Definition allTypes : list WorkloadType :=
  [NetworkType; VolumeType; PublicIPType; ContainerType; ZMachineType; ZDBType].

End Reporter.

(** ** pkg/provision/explorer/source.go *)

Module Explorer.

Definition ReservationType := string.

(** [provision.Reservation] *)
Record Reservation := {
  ID : string;
  User : string;
  Type_ : ReservationType;
  Data : string;
  Created : Time;
  Duration : Duration
}.

#[global] Instance Reservation_eq_dec : EqDecision Reservation.
Proof. unfold Time, Go.Duration. solve_decision. Defined.

(** The poller; [W] is the explorer's workload type, [wl] the explorer
    client's [Workloads] call, and a [nil] map is [None]. *)
Record Poller (W : Type) := {
  wl : string -> Z -> result (list W * Z);
  inputConv : W -> result Reservation;
  provisionOrder : option (gmap ReservationType Z)
}.
Arguments wl {W} _.
Arguments inputConv {W} _.
Arguments provisionOrder {W} _.

(** Reading a map gives the zero value for a missing key. *)
Definition rank (m : gmap ReservationType Z) (t : ReservationType) : Z :=
  default 0 (m !! t).

(** The conversion loop, with its early return. *)
Fixpoint convert {W} (conv : W -> result Reservation) (polled : list W)
    (result : list Reservation) : Go.result (list Reservation) :=
  match polled with
  | [] => Ok result
  | w :: polled =>
      match conv w with
      | Err err => Err err
      | Ok r => convert conv polled (result ++ [r])
      end
  end.

Section Poll.

Variable quickSort : forall A : Type, (A -> A -> bool) -> list A -> list A.

Definition Poll {W} (r : Poller W) (nodeID : string) (from : Z)
  : result (list Reservation * Z) :=
  match wl r nodeID from with
  | Err err =>
      Err ("error while retrieving workloads from explorer: " +:+ err)
  | Ok (polled, lastID) =>
      match convert (inputConv r) polled [] with
      | Err err => Err err
      | Ok result =>
          let result :=
            match provisionOrder r with
            | Some order =>
                sort_Slice quickSort
                  (fun ri rj => rank order (Type_ ri) <? rank order (Type_ rj))
                  result
            | None => result
            end in
          Ok (result, lastID)
      end
  end.

End Poll.

(** Two containers, the later one polled first. *)
Definition later : Reservation := {|
  ID := "2-1"; User := "u"; Type_ := "container"; Data := "";
  Created := 200 * Second; Duration := Minute
|}.

Definition earlier : Reservation := {|
  ID := "1-1"; User := "u"; Type_ := "container"; Data := "";
  Created := 100 * Second; Duration := Minute
|}.

Definition bootOrder : gmap ReservationType Z :=
  <["network" := 0]> (<["volume" := 1]> (<["zdb" := 2]>
    (<["container" := 3]> ∅))).

Definition samplePoller : Poller Reservation := {|
  wl := fun _ _ => Ok ([later; earlier], 2);
  inputConv := fun w => Ok w;
  provisionOrder := Some bootOrder
|}.

End Explorer.

(** ** tools/explorer/pkg/workloads/types *)

Module Types.

(** The generated workload types, with the fields [reservation.go] reads. *)
Record Container := { Container_WorkloadId : Z; Container_NodeId : string }.
Record Volume := { Volume_WorkloadId : Z; Volume_NodeId : string }.
Record ZDB := { ZDB_WorkloadId : Z; ZDB_NodeId : string }.
Record K8S := { K8S_WorkloadId : Z; K8S_NodeId : string }.
Record NetworkNetResource := { NetResource_NodeId : string }.
Record Network := {
  Network_WorkloadId : Z;
  NetworkResources : list NetworkNetResource
}.

Record ReservationData := {
  ExpirationReservation : Time;
  Containers : list Container;
  Volumes : list Volume;
  Zdbs : list ZDB;
  Networks : list Network;
  Kubernetes : list K8S
}.

Record Reservation := {
  ID : Z;
  Json : string;
  DataReservation : ReservationData;
  CustomerTid : Z;
  CustomerSignature : string
}.

#[global] Instance Container_eq_dec : EqDecision Container.
Proof. solve_decision. Defined.
#[global] Instance Volume_eq_dec : EqDecision Volume.
Proof. solve_decision. Defined.
#[global] Instance ZDB_eq_dec : EqDecision ZDB.
Proof. solve_decision. Defined.
#[global] Instance K8S_eq_dec : EqDecision K8S.
Proof. solve_decision. Defined.
#[global] Instance NetworkNetResource_eq_dec : EqDecision NetworkNetResource.
Proof. solve_decision. Defined.
#[global] Instance Network_eq_dec : EqDecision Network.
Proof. solve_decision. Defined.
#[global] Instance ReservationData_eq_dec : EqDecision ReservationData.
Proof. solve_decision. Defined.

(** One turn of a loop of [validate] over workloads: [ids] is the set
    built so far, or the error the function has returned with. *)
Definition check_id (acc : result (gset Z)) (WorkloadId : Z)
  : result (gset Z) :=
  match acc with
  | Err e => Err e
  | Ok ids =>
      if decide (WorkloadId ∈ ids) then
        Err ("conflicting workload ID '" +:+ pretty WorkloadId +:+ "'")
      else Ok ({[WorkloadId]} ∪ ids)
  end.

Section Validate.

(** [json.Unmarshal] into a [ReservationData]. *)
Variable json_Unmarshal : string -> result ReservationData.

Definition validate (r : Reservation) : option error :=
  if decide (CustomerTid r = 0) then Some "customer_tid is required"
  else if decide (String.length (CustomerSignature r) = 0%nat) then
    Some "customer_signature is required"
  else
    match json_Unmarshal (Json r) with
    | Err err => Some ("invalid json data on reservation" +:+ ": " +:+ err)
    | Ok data =>
        if decide (DataReservation r = data) then
          let d := DataReservation r in
          let ids := Ok ∅ in
          let ids := fold_left check_id (map Container_WorkloadId (Containers d)) ids in
          let ids := fold_left check_id (map Network_WorkloadId (Networks d)) ids in
          let ids := fold_left check_id (map ZDB_WorkloadId (Zdbs d)) ids in
          let ids := fold_left check_id (map Volume_WorkloadId (Volumes d)) ids in
          let ids := fold_left check_id (map K8S_WorkloadId (Kubernetes d)) ids in
          match ids with
          | Err e => Some e
          | Ok _ => None
          end
        else Some "json data does not match the reservation data"
    end.

End Validate.

(** All workload ids of a reservation, in the order [validate] meets
    them. *)
Definition workload_ids (d : ReservationData) : list Z :=
  map Container_WorkloadId (Containers d)
  ++ map Network_WorkloadId (Networks d)
  ++ map ZDB_WorkloadId (Zdbs d)
  ++ map Volume_WorkloadId (Volumes d)
  ++ map K8S_WorkloadId (Kubernetes d).

(** [Reservation.Expired], with the clock reading [now]. *)
Definition Expired (now : Time) (r : Reservation) : bool :=
  Until now (ExpirationReservation (DataReservation r)) <=? 0.

(** A reservation whose container and volume share the workload id 1. *)
Definition clashing : Reservation := {|
  ID := 8;
  Json := "{}";
  DataReservation := {|
    ExpirationReservation := 1600000000 * Second;
    Containers := [{| Container_WorkloadId := 1; Container_NodeId := "n1" |}];
    Volumes := [{| Volume_WorkloadId := 1; Volume_NodeId := "n1" |}];
    Zdbs := [];
    Networks := [];
    Kubernetes := []
  |};
  CustomerTid := 12;
  CustomerSignature := "c2ln"
|}.

(** A reservation with a container and a volume. *)
Definition sampleData : ReservationData := {|
  ExpirationReservation := 1600000000 * Second;
  Containers := [{| Container_WorkloadId := 1; Container_NodeId := "n1" |}];
  Volumes := [{| Volume_WorkloadId := 2; Volume_NodeId := "n1" |}];
  Zdbs := [];
  Networks := [];
  Kubernetes := []
|}.

Definition sample : Reservation := {|
  ID := 7;
  Json := "{}";
  DataReservation := sampleData;
  CustomerTid := 12;
  CustomerSignature := "c2ln"
|}.

End Types.

(** ** The identity package: key pairs and seed files *)

Module Identity.

Definition byte := Z.

Definition SeedSize : nat := 32.
Definition PublicKeySize : nat := 32.
Definition PrivateKeySize : nat := 64.

Record KeyPair := {
  PrivateKey : list byte;
  PublicKey : list byte
}.

(** [copy(dst, src)] into a fresh [make([]byte, n)]. *)
Definition copy_into (n : nat) (src : list byte) : list byte :=
  take n (src ++ replicate n 0).

(** [PrivateKey.Seed()]; slicing a key that is too short panics ([None]). *)
Definition Seed (priv : list byte) : option (list byte) :=
  if (length priv <? 32)%nat then None
  else Some (copy_into SeedSize (take 32 priv)).

(** The files under the paths of interest, and whether the process may
    write a path. *)
Record FS := {
  files : gmap string (list byte);
  writable : string -> bool
}.

Definition WriteFile (fs : FS) (path : string) (data : list byte)
  : FS * option error :=
  if writable fs path then
    ({| files := <[path := data]> (files fs); writable := writable fs |}, None)
  else (fs, Some ("open " +:+ path +:+ ": permission denied")).

Definition ReadFile (fs : FS) (path : string) : result (list byte) :=
  match files fs !! path with
  | Some data => Ok data
  | None => Err ("open " +:+ path +:+ ": no such file or directory")
  end.

Section Ed25519.

(** The public key that ed25519 derives from a seed (a 32 byte array). *)
Variable publicKeyOf : list byte -> list byte.

(** [ed25519.NewKeyFromSeed]: the seed followed by its public key. *)
Definition NewKeyFromSeed (seed : list byte) : list byte :=
  seed ++ publicKeyOf seed.

(** [GenerateKeyPair], from the seed the random source gave. *)
Definition GenerateKeyPair (seed : list byte) : KeyPair :=
  {| PrivateKey := NewKeyFromSeed seed; PublicKey := publicKeyOf seed |}.

(** [SerializeSeed]; [None] when taking the seed panics. *)
Definition SerializeSeed (keypair : KeyPair) (path : string) (fs : FS)
  : option (FS * option error) :=
  match Seed (PrivateKey keypair) with
  | None => None
  | Some seed => Some (WriteFile fs path seed)
  end.

Definition LoadSeed (path : string) (fs : FS) : result KeyPair :=
  match ReadFile fs path with
  | Err err => Err err
  | Ok seed =>
      if decide (length seed = SeedSize) then
        let privateKey := NewKeyFromSeed seed in
        let publicKey := copy_into PublicKeySize (drop 32 privateKey) in
        Ok {| PrivateKey := privateKey; PublicKey := publicKey |}
      else
        Err ("seed has the wrong size " +:+ pretty (Z.of_nat (length seed)))
  end.

End Ed25519.

(** A stand-in derivation for examples: 32 bytes read off the seed. *)
Definition toyPublicKeyOf (seed : list byte) : list byte :=
  copy_into 32 (map (fun b => (b + 1) mod 256) seed).

Definition toySeed : list byte := map Z.of_nat (seq 0 32).

Definition emptyFS : FS := {| files := ∅; writable := fun _ => true |}.

End Identity.

(** ** modules/provision/container.go: containers *)

Module Provision.

(** The reservation payload of a container. *)
Record Network := { NetwokID : string }.

Record Mount := { VolumeID : string; Mountpoint : string }.

(** [Env] is a Go map; it is kept as the list of its entries in the order
    the [range] loop meets them. *)
Record Container := {
  FList : string;
  Env : list (string * string);
  Entrypoint : string;
  Interactive : bool;
  Mounts : list Mount;
  Network_ : Network
}.

Record Reservation := {
  ID : string;
  User : string;
  Type_ : string;
  Data : string
}.

(** What is handed to the container module ([modules.Container]). *)
Record MountInfo := {
  Source : string;
  Target : string;
  MountType : string;
  Options : list string
}.

Record NetworkInfo := { Namespace : string }.

Record ContainerData := {
  Name : string;
  RootFS : string;
  CEnv : list string;
  CNetwork : NetworkInfo;
  CMounts : list MountInfo;
  CEntrypoint : string;
  CInteractive : bool
}.

(** The state of the node the provisioning acts on: the containers known
    to containerd by namespace and id, the network namespaces joined, the
    flists mounted and the directories made. *)
Record Node := {
  containers : gmap (string * string) ContainerData;
  joined : list string;
  mounted : list string;
  made : list string
}.

(** What the node's modules answer; it does not change during a call. *)
Record Modules := {
  containerd : bool;
  shlex_Split : string -> result (list string);
  startTask : string -> ContainerData -> option error;
  join : string -> result string;
  mount : string -> result string;
  umount : string -> option error;
  ownerOf : string -> result string;
  mkdirAll : string -> option error;
  volumePath : string -> result string;
  json_Unmarshal : string -> result Container;
  path_Join : string -> string -> string
}.

(** A call on the node: a result and the node after it. *)
Definition Call (A : Type) : Type := Node -> result A * Node.

Definition pure {A} (a : A) : Call A := fun n => (Ok a, n).
Definition fail {A} (e : error) : Call A := fun n => (Err e, n).

Definition andThen {A B} (c : Call A) (k : A -> Call B) : Call B :=
  fun n =>
    match c n with
    | (Ok a, n') => k a n'
    | (Err e, n') => (Err e, n')
    end.

Notation "x <-- c ;; k" := (andThen c (fun x => k))
  (at level 100, c at next level, right associativity).

Section Stubs.

Variable m : Modules.

(** [containerModule.Inspect] *)
Definition Inspect (ns id : string) : Call ContainerData := fun n =>
  if containerd m then
    match containers n !! (ns, id) with
    | Some c => (Ok c, n)
    | None => (Err ("container " +:+ id +:+ ": not found"), n)
    end
  else (Err "failed to dial containerd", n).

(** [containerModule.Run]: the container gets the name it is given as its
    id; a container that cannot be started is deleted again. *)
Definition Run (ns : string) (data : ContainerData) : Call string := fun n =>
  if negb (containerd m) then (Err "failed to dial containerd", n)
  else if decide (RootFS data = "") then
    (Err "RootFS of the container creation data cannot be empty", n)
  else if decide (Namespace (CNetwork data) = "") then
    (Err "cannot create container without network namespace", n)
  else
    match shlex_Split m (CEntrypoint data) with
    | Err _ | Ok [] =>
        (Err ("invalid entrypoint definition '" +:+ CEntrypoint data +:+ "'"),
         n)
    | Ok _ =>
        match containers n !! (ns, Name data) with
        | Some _ => (Err ("container " +:+ Name data +:+ ": already exists"), n)
        | None =>
            match startTask m ns data with
            | Some err => (Err err, n)
            | None =>
                (Ok (Name data),
                 {| containers := <[(ns, Name data) := data]> (containers n);
                    joined := joined n; mounted := mounted n;
                    made := made n |})
            end
        end
    end.

(** [Networker.Join] *)
Definition Join (netID : string) : Call string := fun n =>
  match join m netID with
  | Err err => (Err err, n)
  | Ok ns =>
      (Ok ns,
       {| containers := containers n; joined := joined n ++ [netID];
          mounted := mounted n; made := made n |})
  end.

(** [Flister.Mount] *)
Definition FlistMount (url : string) : Call string := fun n =>
  match mount m url with
  | Err err => (Err err, n)
  | Ok mnt =>
      (Ok mnt,
       {| containers := containers n; joined := joined n;
          mounted := mounted n ++ [mnt]; made := made n |})
  end.

(** [Flister.Umount]; the caller only logs a failure. *)
Definition FlistUmount (mnt : string) : Call unit := fun n =>
  match umount m mnt with
  | Some _ => (Ok tt, n)
  | None =>
      (Ok tt,
       {| containers := containers n; joined := joined n;
          mounted := filter (fun x => x <> mnt) (mounted n);
          made := made n |})
  end.

Definition MkdirAll (dir : string) : Call unit := fun n =>
  match mkdirAll m dir with
  | Some err => (Err err, n)
  | None =>
      (Ok tt,
       {| containers := containers n; joined := joined n;
          mounted := mounted n; made := made n ++ [dir] |})
  end.

Definition answer {A} (r : result A) : Call A := fun n => (r, n).

Definition Wrapf {A} (r : result A) (msg : string) : result A :=
  match r with
  | Ok a => Ok a
  | Err err => Err (msg +:+ ": " +:+ err)
  end.

(** The loop over [config.Mounts], with its early returns. *)
Fixpoint bindMounts (user mnt : string) (todo : list Mount)
    (mounts : list MountInfo) : Call (list MountInfo) :=
  match todo with
  | [] => pure mounts
  | mount :: todo =>
      owner <-- answer (Wrapf (ownerOf m (VolumeID mount))
                  ("failed to retrieve the owner of volume "
                   +:+ VolumeID mount)) ;;
      if decide (owner <> user) then
        fail ("cannot use volume " +:+ VolumeID mount +:+ ", user " +:+ user
              +:+ " is not the owner of it")
      else
        let mountpoint := path_Join m "/" (Mountpoint mount) in
        _ <-- MkdirAll (path_Join m mnt mountpoint) ;;
        source <-- answer (Wrapf (volumePath m (VolumeID mount))
                     ("failed to get the mountpoint path of the volume "
                      +:+ VolumeID mount)) ;;
        bindMounts user mnt todo
          (mounts ++ [{| Source := source; Target := mountpoint;
                         MountType := "none"; Options := ["bind"] |}])
  end.

(** [ContainerProvision] *)
Definition ContainerProvision (reservation : Reservation) : Call string :=
  fun n =>
  let tenantNS := "ns" +:+ User reservation in
  let containerID := ID reservation in
  (* check if workload is already deployed *)
  match Inspect tenantNS containerID n with
  | (Ok _, n) => (Ok containerID, n)
  | (Err _, n) =>
      (config <-- answer (json_Unmarshal m (Data reservation)) ;;
       ns <-- Join (NetwokID (Network_ config)) ;;
       mnt <-- FlistMount (FList config) ;;
       let env := map (fun '(k, v) => k +:+ "=" +:+ v) (Env config) in
       mounts <-- bindMounts (User reservation) mnt (Mounts config) [] ;;
       fun n =>
         match Run tenantNS
                 {| Name := ID reservation; RootFS := mnt; CEnv := env;
                    CNetwork := {| Namespace := ns |}; CMounts := mounts;
                    CEntrypoint := Entrypoint config;
                    CInteractive := Interactive config |} n with
         | (Ok id, n) => (Ok id, n)
         | (Err err, n) => (Err err, snd (FlistUmount mnt n))
         end) n
  end.

End Stubs.

(** A node on which everything works, and a container reservation. *)
Definition goodModules : Modules := {|
  containerd := true;
  shlex_Split := fun s => Ok [s];
  startTask := fun _ _ => None;
  join := fun netID => Ok ("net-" +:+ netID);
  mount := fun url => Ok "/var/cache/flist/1";
  umount := fun _ => None;
  ownerOf := fun _ => Ok "user1";
  mkdirAll := fun _ => None;
  volumePath := fun v => Ok ("/mnt/" +:+ v);
  json_Unmarshal := fun _ =>
    Ok {| FList := "https://hub.grid.tf/tf-official-apps/redis.flist";
          Env := [("A", "1")];
          Entrypoint := "/bin/redis-server";
          Interactive := false;
          Mounts := [{| VolumeID := "vol1"; Mountpoint := "data" |}];
          Network_ := {| NetwokID := "net1" |} |};
  path_Join := fun a b => a +:+ "/" +:+ b
|}.

Definition emptyNode : Node :=
  {| containers := ∅; joined := []; mounted := []; made := [] |}.

Definition redis : Reservation :=
  {| ID := "r-1"; User := "user1"; Type_ := "container"; Data := "{}" |}.

End Provision.

(** ** github.com/cenkalti/backoff/v3

    The retry library the daemons use.  Its [float64] factors are kept as
    exact rationals, its clock is the instant handed in, and the random
    number of a draw is an argument. *)

Module Backoff.

Record ExponentialBackOff := {
  InitialInterval : Duration;
  RandomizationFactor : Q;
  Multiplier : Q;
  MaxInterval : Duration;
  MaxElapsedTime : Duration;
  currentInterval : Duration;
  startTime : Time
}.

Definition DefaultInitialInterval : Duration := 500 * Millisecond.
Definition DefaultRandomizationFactor : Q := 1 # 2.
Definition DefaultMultiplier : Q := 3 # 2.
Definition DefaultMaxInterval : Duration := 60 * Second.
Definition DefaultMaxElapsedTime : Duration := 15 * Minute.

(** [Stop]: no more retries should be made. *)
Definition Stop : Duration := -1.

(** [Reset] *)
Definition Reset (b : ExponentialBackOff) (now : Time) : ExponentialBackOff :=
  {| InitialInterval := InitialInterval b;
     RandomizationFactor := RandomizationFactor b;
     Multiplier := Multiplier b;
     MaxInterval := MaxInterval b;
     MaxElapsedTime := MaxElapsedTime b;
     currentInterval := InitialInterval b;
     startTime := now |}.

(** [NewExponentialBackOff], created at [now]. *)
Definition NewExponentialBackOff (now : Time) : ExponentialBackOff :=
  Reset {| InitialInterval := DefaultInitialInterval;
           RandomizationFactor := DefaultRandomizationFactor;
           Multiplier := DefaultMultiplier;
           MaxInterval := DefaultMaxInterval;
           MaxElapsedTime := DefaultMaxElapsedTime;
           currentInterval := 0;
           startTime := 0 |} now.

Definition setMaxInterval (b : ExponentialBackOff) (d : Duration)
  : ExponentialBackOff :=
  {| InitialInterval := InitialInterval b;
     RandomizationFactor := RandomizationFactor b;
     Multiplier := Multiplier b;
     MaxInterval := d;
     MaxElapsedTime := MaxElapsedTime b;
     currentInterval := currentInterval b;
     startTime := startTime b |}.

Definition setMaxElapsedTime (b : ExponentialBackOff) (d : Duration)
  : ExponentialBackOff :=
  {| InitialInterval := InitialInterval b;
     RandomizationFactor := RandomizationFactor b;
     Multiplier := Multiplier b;
     MaxInterval := MaxInterval b;
     MaxElapsedTime := d;
     currentInterval := currentInterval b;
     startTime := startTime b |}.

Definition GetElapsedTime (b : ExponentialBackOff) (now : Time) : Duration :=
  Sub now (startTime b).

(** [getRandomValueFromInterval]; [random] is in [0, 1). *)
Definition getRandomValueFromInterval (randomizationFactor random : Q)
    (currentInterval : Duration) : Duration :=
  let delta := (randomizationFactor * inject_Z currentInterval)%Q in
  let minInterval := (inject_Z currentInterval - delta)%Q in
  let maxInterval := (inject_Z currentInterval + delta)%Q in
  Qfloor (minInterval + random * (maxInterval - minInterval + 1))%Q.

Definition incrementCurrentInterval (b : ExponentialBackOff)
  : ExponentialBackOff :=
  {| InitialInterval := InitialInterval b;
     RandomizationFactor := RandomizationFactor b;
     Multiplier := Multiplier b;
     MaxInterval := MaxInterval b;
     MaxElapsedTime := MaxElapsedTime b;
     currentInterval :=
       if Qle_bool (inject_Z (MaxInterval b) / Multiplier b)
            (inject_Z (currentInterval b))
       then MaxInterval b
       else Qfloor (inject_Z (currentInterval b) * Multiplier b)%Q;
     startTime := startTime b |}.

(** [NextBackOff]: the next wait, and the back-off after the call. *)
Definition NextBackOff (b : ExponentialBackOff) (now : Time) (random : Q)
  : Duration * ExponentialBackOff :=
  if negb (MaxElapsedTime b =? 0)
     && (MaxElapsedTime b <? GetElapsedTime b now)
  then (Stop, b)
  else (getRandomValueFromInterval (RandomizationFactor b) random
          (currentInterval b),
        incrementCurrentInterval b).

(** One turn of a retry loop, as the world decides it: what the operation
    answers and how long it takes, the random number drawn, and by how
    much the timer fires late. *)
Record Turn (A : Type) := {
  answer : result A;
  took : Duration;
  random : Q;
  late : Duration
}.
Arguments answer {A} _.
Arguments took {A} _.
Arguments random {A} _.
Arguments late {A} _.

(** [RetryNotify] without a notify function and without a context; the
    loop is run for at most [fuel] turns.  It answers the operation's
    last result, the waits it made and the time it ended. *)
Fixpoint retry {A} (fuel : nat) (turns : nat -> Turn A) (i : nat)
    (b : ExponentialBackOff) (now : Time) (waits : list Duration)
  : option (result A * list Duration * Time) :=
  match fuel with
  | O => None
  | S fuel =>
      let turn := turns i in
      let now := now + took turn in
      match answer turn with
      | Ok a => Some (Ok a, waits, now)
      | Err err =>
          let '(next, b) := NextBackOff b now (random turn) in
          if next =? Stop then Some (Err err, waits, now)
          else retry fuel turns (S i) b (now + next + late turn)
                 (waits ++ [next])
      end
  end.

Definition RetryNotify {A} (fuel : nat) (turns : nat -> Turn A)
    (b : ExponentialBackOff) (now : Time)
  : option (result A * list Duration * Time) :=
  retry fuel turns 0 (Reset b now) now [].

End Backoff.

(** ** modules/provision: the 0-db container *)

Module Zdb.

Import Backoff.

(** A [net.IP] with what [isPublic] asks of it. *)
Record IP := {
  text : string;
  To4 : bool;
  IsLoopback : bool;
  IsLinkLocalUnicast : bool;
  IsLinkLocalMulticast : bool;
  IsInterfaceLocalMulticast : bool
}.

Definition isPublic (ip : IP) : bool :=
  if To4 ip then false
  else negb (IsLoopback ip || IsLinkLocalUnicast ip
             || IsLinkLocalMulticast ip || IsInterfaceLocalMulticast ip).

(** [getIP], from what [network.Addrs] answers. *)
Definition getIP (addrs : result (list IP)) : result IP :=
  match addrs with
  | Err err => Err err
  | Ok ips =>
      match List.find isPublic ips with
      | Some ip => Ok ip
      | None => Err "not up public found, waiting"
      end
  end.

(** What [createZdbContainer] does on the node. *)
Inductive Effect :=
| FlistMount (url : string)
| ZDBPrepare
| ContainerRun (name : string)
| ContainerDelete (name : string)
| FlistUmount (rootFS : string).

(** What the modules answer to one call of [createZdbContainer]. *)
Record Answers := {
  flistMount : result string;
  zdbPrepare : result string;
  containerRun : option error;
  addrs : nat -> Turn (list IP)
}.

Definition zdbFlistURL : string :=
  "https://hub.grid.tf/tf-autobuilder/threefoldtech-0-db-development.flist".

Definition getIP_turns (a : Answers) (i : nat) : Turn IP :=
  {| answer := getIP (answer (addrs a i));
     took := took (addrs a i);
     random := random (addrs a i);
     late := late (addrs a i) |}.

(** The back-off of the wait for an address. *)
Definition ipBackOff (now : Time) : ExponentialBackOff :=
  setMaxInterval (NewExponentialBackOff now) (Minute * 2).

(** [createZdbContainer], started at [now]. *)
Definition createZdbContainer (fuel : nat) (a : Answers) (name : string)
    (now : Time) : option (result IP * list Effect) :=
  match flistMount a with
  | Err err => Some (Err err, [FlistMount zdbFlistURL])
  | Ok rootFS =>
      match zdbPrepare a with
      | Err err =>
          Some (Err err, [FlistMount zdbFlistURL; ZDBPrepare; FlistUmount rootFS])
      | Ok netNsName =>
          match containerRun a with
          | Some err =>
              Some (Err ("failed to create container: " +:+ err),
                    [FlistMount zdbFlistURL; ZDBPrepare; ContainerRun name;
                     FlistUmount rootFS])
          | None =>
              match RetryNotify fuel (getIP_turns a) (ipBackOff now) now with
              | None => None
              | Some (Err err, _, _) =>
                  (* cleanup() *)
                  Some (Err ("failed to get an IP for 0-db container "
                             +:+ name +:+ ": " +:+ err),
                        [FlistMount zdbFlistURL; ZDBPrepare; ContainerRun name;
                         ContainerDelete name; FlistUmount rootFS])
              | Some (Ok containerIP, _, _) =>
                  Some (Ok containerIP,
                        [FlistMount zdbFlistURL; ZDBPrepare; ContainerRun name])
              end
          end
      end
  end.


(** A 0-db container that never gets a public address: every turn comes
    back at once with a link-local address only. *)
Definition linkLocal : IP := {|
  text := "fe80::1"; To4 := false; IsLoopback := false;
  IsLinkLocalUnicast := true; IsLinkLocalMulticast := false;
  IsInterfaceLocalMulticast := false
|}.

Definition noPublicIP : Answers := {|
  flistMount := Ok "/var/cache/flist/zdb";
  zdbPrepare := Ok "zdb-ns-1";
  containerRun := None;
  addrs := fun _ =>
    {| answer := Ok [linkLocal]; took := 0; random := 1 # 2; late := 0 |}
|}.

End Zdb.

(** ** cmds/modules/provisiond/reported.go: the rest of the reporter *)

Module Reported.

Import Gridtypes Reporter.

Set Warnings "-register-all".

(** An error as [many] meets it: some error with its message, or a
    [many] of errors in turn. *)
Inductive anError :=
| Plain (msg : string)
| Nested (errs : list anError).

(** The newline [WithPrefix] writes before every error but the first one
    to leave something in the buffer. *)
Definition separated (buf : string) : string :=
  if (0 <? Z.of_nat (String.length buf)) then buf +:+ newline else buf.

(** What [WithPrefix p] writes for one error: its message, or for a
    [many] its own [WithPrefix (p + " ")]. *)
Fixpoint written (p : string) (err : anError) : string :=
  match err with
  | Plain msg => msg
  | Nested errs =>
      fold_left (fun buf e => separated buf +:+ written (p +:+ " ") e)
        errs EmptyString
  end.

(** [many.WithPrefix] *)
Definition WithPrefix (p : string) (m : list anError) : string :=
  fold_left (fun buf err => separated buf +:+ written p err) m EmptyString.

(** [many.Error] *)
Definition Error (m : list anError) : string := WithPrefix "" m.

(** The alignment of a tick in [Reporter.Run]: [u = (u / every) * every]
    on [int64], where [/] truncates towards zero. *)
Definition align (u : Z) : Z := (u ÷ every) * every.

(** [Reporter.collect]: what it returns and what it hands to [push], in
    order. *)
Definition collect (storage : Fs) (types : list WorkloadType) (since : Time)
  : option error * list (ID * Consumption) :=
  match Users storage with
  | Err err => (Some err, [])
  | Ok users =>
      (None, map (fun u => (u, fst (user storage types since u))) users)
  end.

(** One tick of [Reporter.Run] at the instant [t], given in seconds since
    the epoch. *)
Definition tick (storage : Fs) (types : list WorkloadType) (t : Z)
  : option error * list (ID * Consumption) :=
  collect storage types (Timestamp_Time (align t)).

(** The workloads of [stored] of one type. *)
Definition stored_of (storage : Fs) (u : ID) (typ : WorkloadType)
  : list Workload :=
  stored storage [typ] u.

(** Nothing goes wrong for a user: the ids of every type can be listed,
    every workload listed can be read, and the capacity of every workload
    that counts can be computed. *)
Definition readable_id (storage : Fs) (since : Time) (id : ID) : Prop :=
  match Get storage id with
  | Err _ => False
  | Ok wl => counted since wl = true -> is_ok (wlCapacity wl) = true
  end.

Definition readable (storage : Fs) (types : list WorkloadType) (since : Time)
    (u : ID) : Prop :=
  Forall
    (fun typ =>
       match ByUser storage u typ with
       | Err _ => False
       | Ok ids => Forall (readable_id storage since) ids
       end)
    types.

(** A store with two users; the second user's container cannot be read. *)
Definition runningContainer : Workload := {|
  Type_ := ContainerType;
  ToDelete := false;
  Result_ := {| State := StateOk; Created := 100; IsNil := false |};
  wlCapacity :=
    Ok {| CRU := 2; SRU := 10; HRU := 0; MRU := 4; IPV4U := 0 |}
|}.

Definition twoUsers : Fs := {|
  Users := Ok ["twin1"; "twin2"];
  ByUser := fun u typ =>
    if decide (typ = ContainerType) then
      if decide (u = "twin1") then Ok ["1-0"; "1-1"] else Ok ["2-0"]
    else Ok [];
  Get := fun id =>
    if decide (id = "2-0") then Err "not found" else Ok runningContainer
|}.

End Reported.

(** ** tools/explorer/pkg/workloads/types/reservation.go: the life cycle *)

Module Lifecycle.

Import Types.

Inductive NextActionEnum :=
| Create | Sign | Pay | Deploy | Delete | Invalid | Deleted.

#[global] Instance NextActionEnum_eq_dec : EqDecision NextActionEnum.
Proof. solve_decision. Defined.

(** The generated result states; [ResultStateOK] and [ResultStateDeleted]
    are the two the file names. *)
Inductive ResultStateEnum :=
| ResultStateError | ResultStateOK | ResultStateDeleted.

#[global] Instance ResultStateEnum_eq_dec : EqDecision ResultStateEnum.
Proof. solve_decision. Defined.

Record Result := {
  WorkloadId : string;
  State : ResultStateEnum;
  Message : string;
  DataJson : string;
  Signature : string;
  NodeId : string
}.

Inductive WorkloadTypeEnum :=
| WorkloadTypeContainer | WorkloadTypeVolume | WorkloadTypeZDB
| WorkloadTypeKubernetes | WorkloadTypeNetwork.

Inductive Content :=
| OfContainer (c : Container)
| OfVolume (v : Volume)
| OfZDB (z : ZDB)
| OfK8S (k : K8S)
| OfNetwork (n : Network).

(** [Workload], without the two time fields ([Created] copies the epoch,
    [Duration] goes through [float64]). *)
Record Workload := {
  wWorkloadId : string;
  wUser : string;
  wType : WorkloadTypeEnum;
  wContent : Content;
  wToDelete : bool;
  wNodeID : string
}.

(** The reservation: the fields [validate] reads, and those of the life
    cycle. *)
Record Reservation := {
  core : Types.Reservation;
  NextAction : NextActionEnum;
  Results : list Result
}.

(** [Reservation.IsAny] *)
Definition IsAny (r : Reservation) (status : list NextActionEnum) : bool :=
  existsb (fun s => bool_decide (NextAction r = s)) status.

(** [Reservation.ResultOf]: the first result of that workload id. *)
Definition ResultOf (r : Reservation) (id : string) : option Result :=
  List.find (fun result => bool_decide (WorkloadId result = id)) (Results r).

(** The workload made in each of the loops of [Reservation.Workloads]. *)
Definition workload (r : Reservation) (wid : Z) (typ : WorkloadTypeEnum)
    (content : Content) (node : string) : Workload :=
  {| wWorkloadId := pretty (ID (core r)) +:+ "-" +:+ pretty wid;
     wUser := pretty (CustomerTid (core r));
     wType := typ;
     wContent := content;
     wToDelete :=
       bool_decide (NextAction r = Delete)
       || bool_decide (NextAction r = Deleted);
     wNodeID := node |}.

(** [len(nodeID) > 0 && node != nodeID]: the workload is passed over. *)
Definition skipped (nodeID node : string) : bool :=
  (0 <? Z.of_nat (String.length nodeID)) && negb (bool_decide (node = nodeID)).

(** [Reservation.Workloads] *)
Definition Workloads (r : Reservation) (nodeID : string) : list Workload :=
  let data := DataReservation (core r) in
  let workloads := [] in
  let workloads :=
    fold_left
      (fun ws wl =>
         if skipped nodeID (Container_NodeId wl) then ws
         else ws ++ [workload r (Container_WorkloadId wl) WorkloadTypeContainer
                       (OfContainer wl) (Container_NodeId wl)])
      (Containers data) workloads in
  let workloads :=
    fold_left
      (fun ws wl =>
         if skipped nodeID (Volume_NodeId wl) then ws
         else ws ++ [workload r (Volume_WorkloadId wl) WorkloadTypeVolume
                       (OfVolume wl) (Volume_NodeId wl)])
      (Volumes data) workloads in
  let workloads :=
    fold_left
      (fun ws wl =>
         if skipped nodeID (ZDB_NodeId wl) then ws
         else ws ++ [workload r (ZDB_WorkloadId wl) WorkloadTypeZDB
                       (OfZDB wl) (ZDB_NodeId wl)])
      (Zdbs data) workloads in
  let workloads :=
    fold_left
      (fun ws wl =>
         if skipped nodeID (K8S_NodeId wl) then ws
         else ws ++ [workload r (K8S_WorkloadId wl) WorkloadTypeKubernetes
                       (OfK8S wl) (K8S_NodeId wl)])
      (Kubernetes data) workloads in
  fold_left
    (fun ws wl =>
       fold_left
         (fun ws nr =>
            if skipped nodeID (NetResource_NodeId nr) then ws
            else ws ++ [workload r (Network_WorkloadId wl) WorkloadTypeNetwork
                          (OfNetwork wl) (NetResource_NodeId nr)])
         (NetworkResources wl) ws)
    (Networks data) workloads.

(** [Reservation.AllDeleted] *)
Definition AllDeleted (r : Reservation) : bool :=
  forallb
    (fun wl =>
       match ResultOf r (wWorkloadId wl) with
       | None => false
       | Some result => bool_decide (State result = ResultStateDeleted)
       end)
    (Workloads r "").

(** [Reservation.IsSuccessfullyDeployed] *)
Definition IsSuccessfullyDeployed (r : Reservation) : bool :=
  if (length (Workloads r "") <=? length (Results r))%nat then
    forallb (fun result => bool_decide (State result = ResultStateOK))
      (Results r)
  else false.

Section Encode.

(** [byte(r.State)] *)
Variable State_byte : ResultStateEnum -> Ascii.ascii.

(** [Result.encode]; writing to a buffer does not fail. *)
Definition encode (r : Result) : result string :=
  Ok (String (State_byte (State r)) (Message r +:+ DataJson r)).

End Encode.

(** A network reservation over two nodes, to be deleted. *)
Definition twoNodes : Reservation := {|
  core := {|
    ID := 9;
    Json := "{}";
    DataReservation := {|
      ExpirationReservation := 1600000000 * Second;
      Containers := [{| Container_WorkloadId := 1; Container_NodeId := "n1" |}];
      Volumes := [];
      Zdbs := [];
      Networks := [{| Network_WorkloadId := 2;
                      NetworkResources :=
                        [{| NetResource_NodeId := "n1" |};
                         {| NetResource_NodeId := "n2" |}] |}];
      Kubernetes := []
    |};
    CustomerTid := 12;
    CustomerSignature := "c2ln"
  |};
  NextAction := Delete;
  Results :=
    [{| WorkloadId := "9-1"; State := ResultStateDeleted; Message := "";
        DataJson := ""; Signature := ""; NodeId := "n1" |};
     {| WorkloadId := "9-2"; State := ResultStateDeleted; Message := "";
        DataJson := ""; Signature := ""; NodeId := "n2" |}]
|}.

End Lifecycle.

(** ** tools/identityd/main.go: the node's identity *)

Module Identityd.

Import Identity.

Definition seedPath : string := "/var/cache/seed.txt".

(** [exists]: [os.Stat] of the path gives no error. *)
Definition exists_ (fs : FS) (path : string) : bool :=
  bool_decide (is_Some (files fs !! path)).

Section LoadIdentity.

Variable publicKeyOf : list byte -> list byte.

(** [loadIdentity]; [random] is what [GenerateKeyPair] gets out of the
    random source, should it be called: a seed, or an error.  The answer
    is [None] when taking the seed of the key panics. *)
Definition loadIdentity (random : result (list byte)) (fs : FS)
  : option (result KeyPair * FS) :=
  let load (fs : FS) := Some (LoadSeed publicKeyOf seedPath fs, fs) in
  if negb (exists_ fs seedPath) then
    match random with
    | Err err => Some (Err err, fs)
    | Ok seed =>
        let nodeID := GenerateKeyPair publicKeyOf seed in
        match SerializeSeed nodeID seedPath fs with
        | None => None
        | Some (fs, Some err) => Some (Err err, fs)
        | Some (fs, None) => load fs
        end
    end
  else load fs.

End LoadIdentity.

End Identityd.

(** ** modules/provision: 0-db namespaces *)

Module ZdbNamespace.

Import Backoff Zdb.

(** [ZDBMapping]; the map is [nil] until the first [Set]. *)
Definition ZDBMapping := option (gmap string string).

Definition Get (z : ZDBMapping) (namespace : string) : string * bool :=
  match z with
  | None => ("", false)
  | Some m =>
      match m !! namespace with
      | Some id => (id, true)
      | None => ("", false)
      end
  end.

Definition Set_ (z : ZDBMapping) (namespace container : string) : ZDBMapping :=
  Some (<[namespace := container]> (default ∅ z)).

Definition zdbContainerNS : string := "zdb".
Definition zdbPort : Z := 9900.

(** [zdbConnectionURL] *)
Definition zdbConnectionURL (ip : string) (port : Z) : string :=
  "tcp://[" +:+ ip +:+ "]:" +:+ pretty port.

(** [strings.Contains] *)
Fixpoint Contains (s substr : string) : bool :=
  String.prefix substr s
  || match s with
     | EmptyString => false
     | String _ s' => Contains s' substr
     end.

(** [errors.Wrap]: wrapping a nil error gives nil. *)
Definition errors_Wrap (err : option error) (msg : string) : option error :=
  match err with
  | None => None
  | Some e => Some (msg +:+ ": " +:+ e)
  end.

Record ZDB := {
  Size : Z;
  Mode : string;
  Password : string;
  DiskType : string;
  Public : bool
}.

Record Reservation := { ID : string; Data : string }.

Record zdbResult := { Addr : string; Namespace : string }.

(** What [container.Inspect] tells of a container: its network namespace
    and the sources of its mounts. *)
Record Inspected := { NetNs : string; MountSources : list string }.

(** What the two functions do to the node and to the 0-db, in order. *)
Inductive Op :=
| Allocate (diskType : string) (size : Z) (mode : string)
| CreateContainer (name : string) (did : list Effect)
| Connect (addr : string)
| CreateNamespace (ns : string)
| NamespaceSetPassword (ns password : string)
| NamespaceSetPublic (ns : string) (public : bool)
| NamespaceSetSize (ns : string) (size : Z)
| DeleteNamespace (ns : string)
| Claim (volume : string) (size : Z)
| Close.

(** What the modules and the 0-db answer during one call. *)
Record World := {
  gigabyte : Z;
  json_Unmarshal : string -> result ZDB;
  inspect : string -> result Inspected;
  addrs : string -> result (list IP);
  allocate : string -> Z -> string -> result (string * string);
  creation : Answers;
  connect : string -> option error;
  createNamespace : string -> option error;
  namespaceSetPassword : string -> string -> option error;
  namespaceSetPublic : string -> bool -> option error;
  namespaceSetSize : string -> Z -> option error;
  deleteNamespace : string -> option error;
  claim : string -> Z -> option error;
  filepath_Base : string -> string
}.

(** The first public address, as the loops over [ips] find it. *)
Definition firstPublic (ips : list IP) : option IP := List.find isPublic ips.

(** The end of a call: the two values returned, the mapping and what was
    done. *)
Definition Ended (A : Type) : Type := A * ZDBMapping * list Op.

(** The second half of [zdbProvision]: the namespace is made on the 0-db
    at [containerIP]. *)
Definition createNamespaceAt (w : World) (config : ZDB) (nsID : string)
    (containerIP : IP) (zdbMap : ZDBMapping) (ops : list Op)
  : Ended (option zdbResult * option error) :=
  let addr := zdbConnectionURL (text containerIP) zdbPort in
  match connect w addr with
  | Some err =>
      ((None, Some ("failed to connect to 0-db at " +:+ addr +:+ ": " +:+ err)),
       zdbMap, ops)
  | None =>
      let ops := ops ++ [Connect addr] in
      (* defer zdbCl.Close() *)
      let leave (ret : option zdbResult * option error) (ops : list Op) :=
        (ret, zdbMap, ops ++ [Close]) in
      match createNamespace w nsID with
      | Some err =>
          leave (None, Some ("failed to create namespace in 0-db at " +:+ addr
                             +:+ ": " +:+ err)) ops
      | None =>
          let ops := ops ++ [CreateNamespace nsID] in
          let withPassword (k : list Op -> Ended (option zdbResult * option error)) :=
            if decide (Password config <> "") then
              match namespaceSetPassword w nsID (Password config) with
              | Some err =>
                  leave (None, Some ("failed to set password namespace " +:+ nsID
                                     +:+ " in 0-db at " +:+ addr +:+ ": " +:+ err))
                    ops
              | None => k (ops ++ [NamespaceSetPassword nsID (Password config)])
              end
            else k ops in
          withPassword (fun ops =>
            match namespaceSetPublic w nsID (Public config) with
            | Some err =>
                leave (None, Some ("failed to make namespace " +:+ nsID
                                   +:+ " public in 0-db at " +:+ addr
                                   +:+ ": " +:+ err)) ops
            | None =>
                let ops := ops ++ [NamespaceSetPublic nsID (Public config)] in
                let size := uint64 (Size config * gigabyte w) in
                match namespaceSetSize w nsID size with
                | Some err =>
                    leave (None, Some ("failed to set size on namespace " +:+ nsID
                                       +:+ " in 0-db at " +:+ addr
                                       +:+ ": " +:+ err)) ops
                | None =>
                    leave (Some {| Addr := addr; Namespace := nsID |}, None)
                      (ops ++ [NamespaceSetSize nsID size])
                end
            end)
      end
  end.

(** Looking up the address of a running container: [Inspect], [Addrs],
    the first public address.  When there is none, the code wraps the
    error of [Addrs], which is nil. *)
Definition lookupIP (w : World) (containerID : string) (inspectMsg : option string)
  : IP + option error :=
  match inspect w containerID with
  | Err err =>
      inr (Some (match inspectMsg with
                 | Some msg => msg +:+ ": " +:+ err
                 | None => err
                 end))
  | Ok c =>
      match addrs w (NetNs c) with
      | Err err => inr (Some ("failed to get 0-db container IP" +:+ ": " +:+ err))
      | Ok ips =>
          match firstPublic ips with
          | Some ip => inl ip
          | None => inr (errors_Wrap None "failed to get 0-db container IP")
          end
      end
  end.

(** [zdbProvision]; [None] when the wait in [createZdbContainer] runs out
    of fuel. *)
Definition zdbProvision (fuel : nat) (w : World) (zdbMap : ZDBMapping)
    (reservation : Reservation) (now : Time)
  : option (Ended (option zdbResult * option error)) :=
  let nsID := ID reservation in
  match json_Unmarshal w (Data reservation) with
  | Err err =>
      Some ((None, Some ("failed to decode reservation schema" +:+ ": " +:+ err)),
            zdbMap, [])
  | Ok config =>
      (* verify if the namespace isn't already deployed *)
      let '(containerID, ok) := Get zdbMap nsID in
      if ok then
        match lookupIP w containerID None with
        | inr err => Some ((None, err), zdbMap, [])
        | inl containerIP =>
            Some ((Some {| Addr := zdbConnectionURL (text containerIP) zdbPort;
                           Namespace := nsID |}, None), zdbMap, [])
        end
      else
        let size := uint64 (Size config * gigabyte w) in
        match allocate w (DiskType config) size (Mode config) with
        | Err err =>
            Some ((None, Some ("failed to allocate storage" +:+ ": " +:+ err)),
                  zdbMap, [])
        | Ok (containerID, vPath) =>
            let ops := [Allocate (DiskType config) size (Mode config)] in
            match inspect w containerID with
            | Ok _ =>
                (* the container runs already: its address is looked up *)
                match lookupIP w containerID
                        (Some "failed to have a 0-db container running") with
                | inr err => Some ((None, err), zdbMap, ops)
                | inl containerIP =>
                    Some (createNamespaceAt w config nsID containerIP zdbMap ops)
                end
            | Err err =>
                if negb (Contains err "not found") then
                  Some ((None,
                         Some ("failed to check if 0-db container already exists"
                               +:+ ": " +:+ err)), zdbMap, ops)
                else
                  match createZdbContainer fuel (creation w) containerID now with
                  | None => None
                  | Some (Err err, did) =>
                      Some ((None, Some ("failed to create 0-db container"
                                         +:+ ": " +:+ err)),
                            zdbMap, ops ++ [CreateContainer containerID did])
                  | Some (Ok containerIP, did) =>
                      (* save in which container this namespace will be running *)
                      let zdbMap := Set_ zdbMap nsID containerID in
                      Some (createNamespaceAt w config nsID containerIP zdbMap
                              (ops ++ [CreateContainer containerID did]))
                  end
            end
        end
  end.

(** [zdbDecommission] *)
Definition zdbDecommission (w : World) (zdbMap : ZDBMapping)
    (reservation : Reservation) : option error * list Op :=
  let nsID := ID reservation in
  match json_Unmarshal w (Data reservation) with
  | Err err => (Some ("failed to decode reservation schema" +:+ ": " +:+ err), [])
  | Ok config =>
      let '(containerID, ok) := Get zdbMap nsID in
      if negb ok then (None, [])
      else
        match inspect w containerID with
        | Err err => (Some err, [])
        | Ok c =>
            match addrs w (NetNs c) with
            | Err err =>
                (Some ("failed to get 0-db container IP" +:+ ": " +:+ err), [])
            | Ok ips =>
                match firstPublic ips with
                | None =>
                    (errors_Wrap None "failed to get 0-db container IP", [])
                | Some containerIP =>
                    let addr := zdbConnectionURL (text containerIP) zdbPort in
                    match connect w addr with
                    | Some err =>
                        (Some ("failed to connect to 0-db at " +:+ addr
                               +:+ ": " +:+ err), [])
                    | None =>
                        (* defer zdbCl.Close() *)
                        match deleteNamespace w nsID with
                        | Some err =>
                            (Some ("failed to delete namespace in 0-db at "
                                   +:+ addr +:+ ": " +:+ err),
                             [Connect addr; Close])
                        | None =>
                            match MountSources c with
                            | [] =>
                                (Some "no mountpoint find in 0-db container, cannot reclaim storage",
                                 [Connect addr; DeleteNamespace nsID; Close])
                            | source :: _ =>
                                let volume := filepath_Base w source in
                                match claim w volume (Size config) with
                                | Some err =>
                                    (Some ("failed to reclaim storage on volume "
                                           +:+ volume +:+ ": " +:+ err),
                                     [Connect addr; DeleteNamespace nsID; Close])
                                | None =>
                                    (None,
                                     [Connect addr; DeleteNamespace nsID;
                                      Claim volume (Size config); Close])
                                end
                            end
                        end
                    end
                end
            end
        end
  end.

(** A node whose 0-db container "zdb-1" runs with a public address. *)
Definition publicIP : IP := {|
  text := "2a02:1802:5e::1"; To4 := false; IsLoopback := false;
  IsLinkLocalUnicast := false; IsLinkLocalMulticast := false;
  IsInterfaceLocalMulticast := false
|}.

Definition running : World := {|
  gigabyte := 1024 * 1024 * 1024;
  json_Unmarshal := fun _ =>
    Ok {| Size := 10; Mode := "seq"; Password := "secret"; DiskType := "ssd";
          Public := false |};
  inspect := fun id =>
    if decide (id = "zdb-1") then
      Ok {| NetNs := "zdb-ns-1"; MountSources := ["/mnt/pool1/zdb-1"] |}
    else Err "container not found";
  addrs := fun _ => Ok [linkLocal; publicIP];
  allocate := fun _ _ _ => Ok ("zdb-1", "/mnt/pool1/zdb-1");
  creation := noPublicIP;
  connect := fun _ => None;
  createNamespace := fun _ => None;
  namespaceSetPassword := fun _ _ => None;
  namespaceSetPublic := fun _ _ => None;
  namespaceSetSize := fun _ _ => None;
  deleteNamespace := fun _ => None;
  claim := fun _ _ => None;
  filepath_Base := fun _ => "zdb-1"
|}.

(** The same node, with a container that shows no public address. *)
Definition hidden : World := {|
  gigabyte := gigabyte running;
  json_Unmarshal := json_Unmarshal running;
  inspect := inspect running;
  addrs := fun _ => Ok [linkLocal];
  allocate := allocate running;
  creation := creation running;
  connect := connect running;
  createNamespace := createNamespace running;
  namespaceSetPassword := namespaceSetPassword running;
  namespaceSetPublic := namespaceSetPublic running;
  namespaceSetSize := namespaceSetSize running;
  deleteNamespace := deleteNamespace running;
  claim := claim running;
  filepath_Base := filepath_Base running
|}.

Definition ns1 : Reservation := {| ID := "ns-1"; Data := "{}" |}.

End ZdbNamespace.

(** * Theorems *)

(** ** The node's own reservation *)

Section NodeReservedFacts.

Import Provisiond.

Variables HDDDevice SSDDevice : DeviceType.
Hypothesis devices_differ : HDDDevice <> SSDDevice.

Lemma whole_gib_fits (size : Z) :
  is_uint64 size -> uint64 (0 + size / gib) = size / gib.
Proof.
  unfold is_uint64, uint64, uint64_mod, gib. intros Hs.
  rewrite Z.add_0_l. apply Z.mod_small.
  split; [apply Z.div_pos; lia|].
  apply Z.div_lt_upper_bound; lia.
Qed.

(** C9. [getNodeReserved]: on an HDD cache the size in whole GiB goes to
    HRU, on an SSD cache to SRU, in both cases with exactly 2 units of MRU
    and nothing else; for any other disk type the call returns an error
    and the counters stay zero. *)
Theorem getNodeReserved_spec (fs : Filesystem) :
  is_uint64 (Size (FsUsage fs)) ->
  let n := Size (FsUsage fs) / 2 ^ 30 in
  let r := getNodeReserved HDDDevice SSDDevice (Ok fs) in
  (DiskType fs = HDDDevice ->
     r = ({| CRU := 0; MRU := 2; HRU := n; SRU := 0; IPV4U := 0 |}, None))
  /\ (DiskType fs = SSDDevice ->
     r = ({| CRU := 0; MRU := 2; HRU := 0; SRU := n; IPV4U := 0 |}, None))
  /\ (DiskType fs <> HDDDevice -> DiskType fs <> SSDDevice ->
     fst r = zeroCounters /\ is_Some (snd r)).
Proof.
  intros Hsz n r. subst n r. unfold getNodeReserved.
  pose proof (whole_gib_fits _ Hsz) as Hfit.
  change (2 ^ 30) with gib.
  repeat split.
  - intros ->. rewrite decide_True by done.
    unfold incMRU, incHRU, Increment; simpl. by rewrite Hfit.
  - intros Hssd. rewrite decide_False by congruence.
    rewrite decide_True by done.
    unfold incMRU, incSRU, Increment; simpl. by rewrite Hfit.
  - rewrite !decide_False by done. done.
  - rewrite !decide_False by done. simpl. eauto.
Qed.

End NodeReservedFacts.

(** The cache answers an error: the error is passed on, nothing is
    reserved. *)
Example getNodeReserved_no_cache :
  Provisiond.getNodeReserved "hdd" "ssd" (Err "no cache")
  = (Provisiond.zeroCounters, Some "no cache").
Proof. reflexivity. Qed.

Example getNodeReserved_unknown_disk :
  Provisiond.getNodeReserved "hdd" "ssd"
    (Ok {| Provisiond.DiskType := "nvme";
           Provisiond.FsUsage :=
             {| Provisiond.Size := 2 ^ 40; Provisiond.Used := 0 |} |})
  = (Provisiond.zeroCounters, Some "unknown cache disk type 'nvme'").
Proof. reflexivity. Qed.

(** The statement of C9 at a 100 GiB SSD cache with the [zos] names. *)
Lemma getNodeReserved_spec_witness :
  Provisiond.getNodeReserved "hdd" "ssd"
    (Ok {| Provisiond.DiskType := "ssd";
           Provisiond.FsUsage :=
             {| Provisiond.Size := 100 * 2 ^ 30 + 5; Provisiond.Used := 0 |} |})
  = ({| Provisiond.CRU := 0; Provisiond.MRU := 2; Provisiond.HRU := 0;
        Provisiond.SRU := 100; Provisiond.IPV4U := 0 |}, None).
Proof.
  refine (proj1 (proj2 (getNodeReserved_spec "hdd" "ssd" _
    {| Provisiond.DiskType := "ssd";
       Provisiond.FsUsage :=
         {| Provisiond.Size := 100 * 2 ^ 30 + 5; Provisiond.Used := 0 |} |} _)) _).
  - discriminate.
  - unfold is_uint64, uint64_mod; simpl; lia.
  - reflexivity.
Defined.

(** ** Sorting a polled batch *)

Section InsertionSortFacts.

Context {A : Type} (key : A -> Z).

Let less (x y : A) : bool := key x <? key y.
Let ascending (x y : A) : Prop := key x <= key y.
Let descending (x y : A) : Prop := key y <= key x.

Lemma insert_back_perm (x : A) (p : list A) :
  Permutation (insert_back less x p) (x :: p).
Proof.
  induction p as [|y p IH]; simpl; [reflexivity|].
  destruct (less x y); [|reflexivity].
  rewrite IH. apply perm_swap.
Qed.

Lemma insert_back_sorted (x : A) (p : list A) :
  StronglySorted descending p ->
  StronglySorted descending (insert_back less x p).
Proof.
  induction p as [|y p IH]; simpl; intros Hp.
  - repeat constructor.
  - apply StronglySorted_inv in Hp as [Hp Hy].
    unfold less at 1. destruct (key x <? key y) eqn:E.
    + apply Z.ltb_lt in E. constructor; [by apply IH|].
      rewrite insert_back_perm. constructor; [unfold descending; lia|done].
    + apply Z.ltb_ge in E. constructor.
      * by constructor.
      * constructor; [done|].
        eapply Forall_impl; [exact Hy|]. unfold descending. simpl. lia.
Qed.

Lemma insertion_loop_perm (l acc : list A) :
  Permutation (fold_left (fun p x => insert_back less x p) l acc)
              (rev l ++ acc).
Proof.
  revert acc. induction l as [|x l IH]; intros acc; simpl; [reflexivity|].
  by rewrite IH, insert_back_perm, <- app_assoc.
Qed.

Lemma insertion_loop_sorted (l acc : list A) :
  StronglySorted descending acc ->
  StronglySorted descending
    (fold_left (fun p x => insert_back less x p) l acc).
Proof.
  revert acc. induction l as [|x l IH]; intros acc Hacc; simpl; [done|].
  by apply IH, insert_back_sorted.
Qed.

Lemma descending_rev (l : list A) :
  StronglySorted descending l -> StronglySorted ascending (rev l).
Proof.
  induction 1 as [|x l Hl IH Hx]; simpl; [constructor|].
  apply StronglySorted_app_2; [|done|repeat constructor].
  intros a b Ha ->%list_elem_of_singleton.
  apply list_elem_of_In, in_rev in Ha.
  rewrite Forall_forall in Hx. by apply Hx, list_elem_of_In.
Qed.

Lemma insertionSort_perm (l : list A) :
  Permutation (insertionSort less l) l.
Proof.
  unfold insertionSort.
  rewrite <- Permutation_rev, insertion_loop_perm, app_nil_r.
  symmetry. apply Permutation_rev.
Qed.

Lemma insertionSort_sorted (l : list A) :
  StronglySorted ascending (insertionSort less l).
Proof. apply descending_rev, insertion_loop_sorted. constructor. Qed.

(** Elements that are never less than one another keep their order. *)
Section Stable.

Variable P : A -> Prop.
Context `{!forall x, Decision (P x)}.
Hypothesis same_key : forall x y, P x -> P y -> key x = key y.

Lemma insert_back_filter (x : A) (p : list A) :
  filter P (insert_back less x p) = filter P (x :: p).
Proof.
  induction p as [|y p IH]; simpl; [reflexivity|].
  unfold less at 1. destruct (key x <? key y) eqn:E; [|reflexivity].
  apply Z.ltb_lt in E.
  rewrite (filter_cons _ y), IH, !(filter_cons _ x), (filter_cons _ y).
  destruct (decide (P x)) as [Hx|]; [|reflexivity].
  destruct (decide (P y)) as [Hy|]; [|reflexivity].
  pose proof (same_key x y Hx Hy). lia.
Qed.

Lemma insertion_loop_filter (l acc : list A) :
  filter P (fold_left (fun p x => insert_back less x p) l acc)
  = rev (filter P l) ++ filter P acc.
Proof.
  revert acc. induction l as [|x l IH]; intros acc; simpl; [reflexivity|].
  rewrite IH, insert_back_filter, !(filter_cons _ x).
  destruct (decide (P x)); simpl; [|reflexivity].
  by rewrite <- app_assoc.
Qed.

Lemma filter_rev (l : list A) : filter P (rev l) = rev (filter P l).
Proof.
  induction l as [|x l IH]; simpl; [reflexivity|].
  rewrite filter_app, IH, !(filter_cons _ x), filter_nil.
  destruct (decide (P x)); simpl; [reflexivity|by rewrite app_nil_r].
Qed.

Lemma insertionSort_stable (l : list A) :
  filter P (insertionSort less l) = filter P l.
Proof.
  unfold insertionSort.
  rewrite filter_rev, insertion_loop_filter, filter_nil, app_nil_r.
  apply rev_involutive.
Qed.

End Stable.

End InsertionSortFacts.

Section PollFacts.

Import Explorer.

(** The long-slice algorithm is only known to sort. *)
Variable quickSort : forall A : Type, (A -> A -> bool) -> list A -> list A.
Hypothesis quickSort_perm : forall A (key : A -> Z) (l : list A),
  Permutation (quickSort A (fun x y => key x <? key y) l) l.
Hypothesis quickSort_sorted : forall A (key : A -> Z) (l : list A),
  StronglySorted (fun x y => key x <= key y)
    (quickSort A (fun x y => key x <? key y) l).

Lemma convert_ok {W} (conv : W -> result Reservation) (polled : list W)
    (acc out : list Reservation) :
  convert conv polled acc = Ok out ->
  exists rs, out = acc ++ rs /\ Forall2 (fun w r => conv w = Ok r) polled rs.
Proof.
  revert acc. induction polled as [|w polled IH]; intros acc; simpl.
  - intros [= <-]. exists []. by rewrite app_nil_r.
  - destruct (conv w) as [r|] eqn:E; [|discriminate].
    intros (rs & -> & Hrs)%IH. exists (r :: rs).
    rewrite <- app_assoc. split; [done|]. by constructor.
Qed.

(** C3 (as the code has it). With a provision order set, [Poll] answers
    the converted batch rearranged by ascending order value of the type
    and by nothing else: creation time and id are not looked at, and in a
    batch short enough for insertion sort the reservations of one type
    stay in the order in which they were polled. *)
Theorem Poll_orders_by_type_only {W} (r : Poller W) (nodeID : string)
    (from lastID : Z) (order : gmap ReservationType Z)
    (out : list Reservation) :
  provisionOrder r = Some order ->
  Poll quickSort r nodeID from = Ok (out, lastID) ->
  exists polled batch,
    wl r nodeID from = Ok (polled, lastID)
    /\ Forall2 (fun w x => inputConv r w = Ok x) polled batch
    /\ Permutation out batch
    /\ StronglySorted
         (fun x y => rank order (Type_ x) <= rank order (Type_ y)) out
    /\ ((length batch <= 6)%nat ->
        forall t, filter (fun x => Type_ x = t) out
                  = filter (fun x => Type_ x = t) batch).
Proof.
  intros Hord. unfold Poll. rewrite Hord.
  destruct (wl r nodeID from) as [[polled last]|]; [|discriminate].
  destruct (convert _ polled []) as [batch|] eqn:Hconv; [|discriminate].
  intros [= <- <-].
  apply convert_ok in Hconv as (rs & -> & Hrs). simpl.
  exists polled, rs. split; [done|]. split; [done|].
  unfold sort_Slice.
  destruct (length rs <=? 6)%nat eqn:Hlen.
  - split; [apply (insertionSort_perm (fun x => rank order (Type_ x)))|].
    split; [apply (insertionSort_sorted (fun x => rank order (Type_ x)))|].
    intros _ t.
    apply (insertionSort_stable (fun x => rank order (Type_ x))).
    by intros x y -> ->.
  - split; [apply (quickSort_perm _ (fun x => rank order (Type_ x)))|].
    split; [apply (quickSort_sorted _ (fun x => rank order (Type_ x)))|].
    apply Nat.leb_gt in Hlen. lia.
Qed.

End PollFacts.

Lemma Poll_orders_by_type_only_witness :
  exists polled batch,
    Explorer.wl Explorer.samplePoller "node" 0 = Ok (polled, 2)
    /\ Forall2 (fun w x => Explorer.inputConv Explorer.samplePoller w = Ok x)
         polled batch
    /\ Permutation [Explorer.later; Explorer.earlier] batch
    /\ StronglySorted
         (fun x y => Explorer.rank Explorer.bootOrder (Explorer.Type_ x)
                     <= Explorer.rank Explorer.bootOrder (Explorer.Type_ y))
         [Explorer.later; Explorer.earlier]
    /\ ((length batch <= 6)%nat ->
        forall t, filter (fun x => Explorer.Type_ x = t)
                    [Explorer.later; Explorer.earlier]
                  = filter (fun x => Explorer.Type_ x = t) batch).
Proof.
  apply (Poll_orders_by_type_only (@insertionSort)
           (fun A key l => insertionSort_perm key l)
           (fun A key l => insertionSort_sorted key l)
           Explorer.samplePoller "node" 0 2 Explorer.bootOrder).
  - reflexivity.
  - reflexivity.
Defined.

(** C3 as stated fails: of two containers polled later-created first,
    [Poll] answers the later-created one first. *)
Lemma Poll_keeps_later_first :
  Explorer.Poll (@insertionSort) Explorer.samplePoller "node" 0
  = Ok ([Explorer.later; Explorer.earlier], 2)
  /\ Explorer.Type_ Explorer.later = Explorer.Type_ Explorer.earlier
  /\ Explorer.Created Explorer.earlier < Explorer.Created Explorer.later.
Proof. vm_compute. repeat split; reflexivity. Qed.

(** ** Explorer reservations *)

(** C6. [Reservation.Expired] holds exactly when the expiration time is at
    or before the current time. *)
Theorem Expired_iff (now : Time) (r : Types.Reservation) :
  Types.Expired now r = true
  <-> Types.ExpirationReservation (Types.DataReservation r) <= now.
Proof.
  unfold Types.Expired, Until, Sub, Before, minDuration, maxDuration,
    minInt64, maxInt64.
  set (expires := Types.ExpirationReservation _).
  destruct (_ && _) eqn:Hrange.
  - rewrite Z.leb_le. lia.
  - destruct (expires <? now) eqn:Hlt.
    + apply Z.ltb_lt in Hlt. rewrite Z.leb_le. lia.
    + apply Z.ltb_ge in Hlt. rewrite Z.leb_le.
      apply andb_false_iff in Hrange as [H|H]; apply Z.leb_gt in H; lia.
Qed.

Example Expired_at_the_deadline :
  Types.Expired (1600000000 * Second) Types.sample = true
  /\ Types.Expired (1600000000 * Second - 1) Types.sample = false.
Proof. split; reflexivity. Qed.

Section ValidateFacts.

Import Types.

Lemma check_id_err (l : list Z) (e : error) :
  fold_left check_id l (Err e) = Err e.
Proof. induction l; simpl; auto. Qed.

(** A loop of [validate] gets through exactly when it meets no id twice
    and no id already in the set. *)
Lemma check_ids_ok (l : list Z) (ids ids' : gset Z) :
  fold_left check_id l (Ok ids) = Ok ids' ->
  NoDup l /\ (forall x, x ∈ l -> x ∉ ids) /\ ids' = list_to_set l ∪ ids.
Proof.
  revert ids. induction l as [|x l IH]; intros ids; simpl.
  - intros [= <-]. split; [constructor|]. split; [|set_solver].
    intros x Hx. by apply elem_of_nil in Hx.
  - destruct (decide (x ∈ ids)) as [Hin|Hnin].
    + rewrite check_id_err. discriminate.
    + intros H. apply IH in H as (Hnd & Hfresh & ->).
      split; [|split].
      * constructor; [|done]. intros Hx. apply Hfresh in Hx. set_solver.
      * intros y [->|Hy]%elem_of_cons; [done|].
        apply Hfresh in Hy. set_solver.
      * set_solver.
Qed.

Lemma check_ids_app (l1 l2 : list Z) (acc : result (gset Z)) :
  fold_left check_id (l1 ++ l2) acc
  = fold_left check_id l2 (fold_left check_id l1 acc).
Proof. apply fold_left_app. Qed.

Variable json_Unmarshal : string -> result ReservationData.

(** C10. A reservation that passes [validate] has pairwise distinct
    workload ids over containers, networks, zdbs, volumes and kubernetes
    together; put the other way, [validate] returns an error whenever two
    of them share an id. *)
Theorem validate_rejects_duplicates (r : Reservation) :
  (validate json_Unmarshal r = None ->
     NoDup (workload_ids (DataReservation r)))
  /\ (~ NoDup (workload_ids (DataReservation r)) ->
     is_Some (validate json_Unmarshal r)).
Proof.
  assert (validate json_Unmarshal r = None ->
          NoDup (workload_ids (DataReservation r))) as Hpass.
  { unfold validate.
    destruct (decide (CustomerTid r = 0)); [discriminate|].
    destruct (decide (String.length _ = 0%nat)); [discriminate|].
    destruct (json_Unmarshal (Json r)) as [data|]; [|discriminate].
    destruct (decide (DataReservation r = data)); [|discriminate].
    cbv zeta. rewrite <- !check_ids_app.
    fold (workload_ids (DataReservation r)).
    destruct (fold_left _ _ _) as [ids|] eqn:E; [|discriminate].
    intros _. by apply check_ids_ok in E as (? & _). }
  split; [exact Hpass|].
  intros Hdup. destruct (validate json_Unmarshal r) eqn:E; [eauto|].
  by destruct Hdup; apply Hpass.
Qed.

End ValidateFacts.

Example validate_clashing :
  Types.validate (fun _ => Ok (Types.DataReservation Types.clashing))
    Types.clashing
  = Some "conflicting workload ID '1'".
Proof. vm_compute. reflexivity. Qed.

Lemma validate_rejects_duplicates_witness :
  NoDup (Types.workload_ids (Types.DataReservation Types.sample)).
Proof.
  apply (validate_rejects_duplicates (fun _ => Ok Types.sampleData) Types.sample).
  reflexivity.
Defined.

(** ** The daemon's entry point *)

Section ActionFacts.

Import Gridtypes Provisiond.

(** Case analysis on what the world answers, in program order. *)
Ltac world_cases w fin :=
  destruct w as [root clears mk eg rs rc nr fss nres ct sapi tw ad mq fb pn
                   mb nrep sa ls];
  unfold trace, action; simpl;
  destruct clears; simpl; [|solve [fin]];
  destruct mk; simpl; [solve [fin]|];
  destruct eg as [[orphan url]|]; simpl; [|solve [fin]];
  destruct orphan; simpl; [solve [fin]|];
  destruct rs; simpl; [solve [fin]|];
  destruct rc; simpl; [solve [fin]|];
  destruct nr; simpl; [|solve [fin]];
  destruct fss; simpl; [solve [fin]|];
  destruct nres; simpl; [solve [fin]|];
  destruct ct; simpl; [solve [fin]|];
  destruct sapi; simpl; [solve [fin]|];
  destruct tw; simpl; [|solve [fin]];
  destruct ad; simpl; [|solve [fin]];
  destruct mq; simpl; [solve [fin]|];
  destruct pn; simpl; [solve [fin]|].

(** C1 (as the code has it). Whenever a run of the daemon gets to build
    the engine, the start-up priority list it configures is volume, then
    network, then public IP. *)
Theorem startup_order_configured (w : World) (c : EngineConfig) :
  configured (trace w) = Some c ->
  order c = [VolumeType; NetworkType; PublicIPType].
Proof.
  world_cases w ltac:(discriminate || (intros [= <-]; reflexivity)).
  destruct nrep, sa, ls; simpl; intros [= <-]; reflexivity.
Qed.

(** C5. In every run of the daemon that starts the engine, the runtime
    upgrade of the primitives is called exactly once, and that call has
    returned when the engine's [Run] loop is spawned: it is the step right
    before it. *)
Theorem runtime_upgrade_once_before_run (w : World) :
  In (EvGo EngineRun) (trace w) ->
  exists pre post,
    trace w = pre ++ EvRuntimeUpgrade :: EvGo EngineRun :: post
    /\ ~ In EvRuntimeUpgrade pre /\ ~ In EvRuntimeUpgrade post
    /\ ~ In (EvGo EngineRun) pre /\ ~ In (EvGo EngineRun) post.
Proof.
  world_cases w ltac:(intros H; exfalso; intuition discriminate).
  destruct nrep, sa, ls; simpl; intros _;
    match goal with
    | |- exists pre post, ?l = _ /\ _ =>
        exists (firstn 16 l), (skipn 18 l)
    end; (split; [reflexivity|]); simpl; intuition discriminate.
Qed.

End ActionFacts.

Lemma startup_order_configured_witness :
  Provisiond.order
    (Provisiond.provision_New (Provisiond.engineOptions "twins" "admins" true))
  = [Gridtypes.VolumeType; Gridtypes.NetworkType; Gridtypes.PublicIPType].
Proof.
  apply (startup_order_configured Provisiond.bootWorld).
  reflexivity.
Defined.

(** C1 as stated fails: on a boot where every step succeeds the configured
    priority list is not (network, volume, public IP). *)
Lemma startup_order_not_network_first :
  Provisiond.order <$> Provisiond.configured (Provisiond.trace Provisiond.bootWorld)
  <> Some [Gridtypes.NetworkType; Gridtypes.VolumeType; Gridtypes.PublicIPType].
Proof. vm_compute. discriminate. Qed.

Lemma runtime_upgrade_once_before_run_witness :
  exists pre post,
    Provisiond.trace Provisiond.bootWorld
    = pre ++ Provisiond.EvRuntimeUpgrade
          :: Provisiond.EvGo Provisiond.EngineRun :: post
    /\ ~ In Provisiond.EvRuntimeUpgrade pre
    /\ ~ In Provisiond.EvRuntimeUpgrade post
    /\ ~ In (Provisiond.EvGo Provisiond.EngineRun) pre
    /\ ~ In (Provisiond.EvGo Provisiond.EngineRun) post.
Proof.
  apply (runtime_upgrade_once_before_run Provisiond.bootWorld).
  vm_compute. tauto.
Defined.

(** ** The capacity reporter *)

Section ReporterFacts.

Import Gridtypes Reporter.

Variable storage : Fs.
Variable since : Time.

Lemma counted_shouldCount (wl : Workload) :
  counted since wl = negb (IsNil (Result_ wl)) && shouldCount since (Result_ wl).
Proof.
  unfold counted, shouldCount, Before. f_equal.
  destruct (decide (State (Result_ wl) = StateOk)) as [->|Hok].
  - reflexivity.
  - rewrite (bool_decide_eq_false_2 _ Hok). simpl.
    destruct (decide (State (Result_ wl) = StateDeleted)) as [->|Hdel].
    + simpl. rewrite Z.leb_antisym. by destruct (_ <? _).
    + by rewrite (bool_decide_eq_false_2 _ Hdel).
Qed.


Lemma capacities_app (l1 l2 : list Workload) :
  capacities (l1 ++ l2) = capacities l1 ++ capacities l2.
Proof. unfold capacities. apply omap_app. Qed.



End ReporterFacts.


(** ** Seed files *)

Section SeedFacts.

Import Identity.

Variable publicKeyOf : list byte -> list byte.
Hypothesis publicKey_size :
  forall seed, length (publicKeyOf seed) = PublicKeySize.

Lemma copy_into_exact (n : nat) (l : list byte) :
  length l = n -> copy_into n l = l.
Proof.
  intros <-. unfold copy_into. by rewrite take_app_length.
Qed.

Lemma Seed_NewKeyFromSeed (seed : list byte) :
  length seed = SeedSize ->
  Seed (NewKeyFromSeed publicKeyOf seed) = Some seed.
Proof.
  intros Hlen. unfold Seed, NewKeyFromSeed.
  rewrite length_app, Hlen, publicKey_size. simpl.
  change 32%nat with SeedSize. rewrite <- Hlen at 2.
  rewrite take_app_length. by rewrite copy_into_exact.
Qed.


End SeedFacts.


(** ** Container provisioning *)

Section ContainerFacts.

Import Provision.

Variable m : Modules.




(** A successful run leaves the container under the name it was given. *)
Lemma Run_ok (ns : string) (data : ContainerData) (n n' : Node) (id : string) :
  Run m ns data n = (Ok id, n') ->
  containerd m = true /\ id = Name data
  /\ containers n' !! (ns, Name data) = Some data.
Proof.
  unfold Run. destruct (containerd m); simpl; [|discriminate].
  destruct (decide (RootFS data = "")); [discriminate|].
  destruct (decide (Namespace (CNetwork data) = "")); [discriminate|].
  destruct (shlex_Split m (CEntrypoint data)) as [[|a args]|]; try discriminate.
  destruct (containers n !! (ns, Name data)); [discriminate|].
  destruct (startTask m ns data); [discriminate|].
  intros [= <- <-]. simpl. by rewrite lookup_insert_eq.
Qed.



End ContainerFacts.


(** ** Waiting for the 0-db container's address *)

Section BackoffFacts.

Import Backoff Zdb.


(** With [MaxElapsedTime] set to 0, as the daemons do where they mean to
    wait for ever, [NextBackOff] never looks at the clock. *)
Lemma NextBackOff_forever (b : ExponentialBackOff) (now : Time) (r : Q) :
  MaxElapsedTime b = 0 ->
  NextBackOff b now r
  = (getRandomValueFromInterval (RandomizationFactor b) r (currentInterval b),
     incrementCurrentInterval b).
Proof. intros H. unfold NextBackOff. by rewrite H. Qed.




Section GivingUp.

Context {A : Type} (turns : nat -> Turn A).

Hypothesis no_answer : forall i, is_err (answer (turns i)) = true.
Hypothesis turns_sane : forall i,
  0 <= took (turns i) /\ 0 <= late (turns i)
  /\ (0 <= random (turns i))%Q /\ (random (turns i) < 1)%Q.



End GivingUp.


End BackoffFacts.



(** * Further properties of the code *)

(** ** The reporter's slots, counters and errors *)

Section ReportedFacts.

Import Gridtypes Reporter Reported.

(** X1. A tick at [t] seconds (not before the epoch) looks at the 5 minute
    slot that holds [t]: the slot starts at a multiple of 300 seconds, at
    or before [t] and less than 300 seconds before it, and a deleted
    result is counted exactly when it was made at or after that start. *)
Theorem tick_slot (t : Z) (res : Result) :
  0 <= t ->
  State res = StateDeleted ->
  align t <= t < align t + every
  /\ align t mod every = 0
  /\ (shouldCount (Timestamp_Time (align t)) res = true
      <-> align t <= Created res).
Proof.
  intros Ht Hdel. unfold align, every.
  pose proof (Z.quot_rem' t (5 * 60)) as Hqr.
  pose proof (Z.rem_bound_pos t (5 * 60) Ht ltac:(lia)) as Hrem.
  split; [lia|]. split; [apply Z_mod_mult|].
  unfold shouldCount, Before, Timestamp_Time, Second, Millisecond.
  rewrite Hdel. simpl.
  destruct (_ <? _) eqn:E.
  - apply Z.ltb_lt in E. split; [discriminate|lia].
  - apply Z.ltb_ge in E. split; [lia|done].
Qed.

(** X2. What is counted for one slot start is counted for every earlier
    one. *)
Theorem shouldCount_earlier (since since' : Time) (res : Result) :
  since' <= since ->
  shouldCount since res = true -> shouldCount since' res = true.
Proof.
  unfold shouldCount, Before. intros Hle.
  destruct (decide (State res = StateOk)); [done|].
  destruct (decide (State res = StateDeleted)); [|done].
  destruct (_ <? since) eqn:E; [discriminate|].
  apply Z.ltb_ge in E. intros _.
  by replace (_ <? since') with false by (symmetry; apply Z.ltb_ge; lia).
Qed.

Variable storage : Fs.
Variable since : Time.

Lemma uint64_succ (v : Z) : uint64 (uint64 v + 1) = uint64 (v + 1).
Proof. unfold uint64. apply Zplus_mod_idemp_l. Qed.

(** One turn of the loop over ids either charges the workload, or leaves
    the consumption as it is. *)
Lemma user_id_cases (typ : WorkloadType) (c : Consumption) (m : many)
    (id : ID) :
  let read := omap (fun id => match Get storage id with
                              | Ok wl => Some wl
                              | Err _ => None
                              end) [id] in
  let charged := capacities (filter (fun wl => counted since wl = true) read) in
  (exists cap,
      charged = [cap]
      /\ user_id storage since typ (c, m) id
         = ({| Workloads := count_up typ (Workloads c);
               Capacity_ := Capacity_Add (Capacity_ c) cap |}, m))
  \/ (charged = [] /\ fst (user_id storage since typ (c, m) id) = c).
Proof.
  cbn zeta. cbn [omap list_omap]. unfold user_id.
  destruct (Get storage id) as [wl|e]; [|by right].
  rewrite filter_cons, filter_nil, counted_shouldCount.
  destruct (IsNil (Result_ wl)); simpl; [by right|].
  destruct (shouldCount since (Result_ wl)); simpl; [|by right].
  destruct (wlCapacity wl) as [cap|e]; [left; eauto|by right].
Qed.

(** The loop over the ids of a type raises the counter of that type once
    for every workload charged, and no other counter. *)
Lemma user_ids_counter (typ : WorkloadType) (ids : list ID) :
  forall (c : Consumption) (m : many) (v : Z),
    Workloads c !! typ = Some (uint64 v) ->
    Workloads (fst (fold_left (user_id storage since typ) ids (c, m))) !! typ
    = Some (uint64 (v + Z.of_nat (length (capacities
              (filter (fun wl => counted since wl = true)
                 (omap (fun id => match Get storage id with
                                  | Ok wl => Some wl
                                  | Err _ => None
                                  end) ids))))))
    /\ forall typ', typ' <> typ ->
         Workloads (fst (fold_left (user_id storage since typ) ids (c, m)))
           !! typ'
         = Workloads c !! typ'.
Proof.
  induction ids as [|id ids IH]; intros c m v Hv.
  - simpl. rewrite Z.add_0_r. done.
  - change (id :: ids) with ([id] ++ ids).
    rewrite omap_app, filter_app, capacities_app, length_app, fold_left_app.
    cbn [fold_left].
    destruct (user_id_cases typ c m id) as [(cap & -> & ->)|[-> Hc]].
    + destruct (IH {| Workloads := count_up typ (Workloads c);
                      Capacity_ := Capacity_Add (Capacity_ c) cap |} m (v + 1))
        as [IH1 IH2].
      { unfold count_up. simpl. rewrite lookup_insert_eq, Hv. simpl.
        by rewrite uint64_succ. }
      split.
      * rewrite IH1. do 2 f_equal. simpl. lia.
      * intros typ' Hne. rewrite IH2 by done.
        unfold count_up. simpl. by rewrite lookup_insert_ne.
    + destruct (user_id storage since typ (c, m) id) as [c1 m1].
      simpl in Hc. subst c1. simpl. by apply IH.
Qed.

Lemma stored_cons (u : ID) (typ : WorkloadType) (types : list WorkloadType) :
  stored storage (typ :: types) u
  = stored_of storage u typ ++ stored storage types u.
Proof. unfold stored_of, stored. simpl. by rewrite app_nil_r. Qed.

Lemma user_type_counter (u : ID) (typ : WorkloadType) (c : Consumption)
    (m : many) :
  let c' := fst (user_type storage since u (c, m) typ) in
  Workloads c' !! typ
  = Some (uint64 (Z.of_nat (length (capacities
            (filter (fun wl => counted since wl = true)
               (stored_of storage u typ))))))
  /\ forall typ', typ' <> typ -> Workloads c' !! typ' = Workloads c !! typ'.
Proof.
  unfold user_type, stored_of, stored. cbn [flat_map]. rewrite app_nil_r.
  destruct (ByUser storage u typ) as [ids|e].
  - destruct (user_ids_counter typ ids
                {| Workloads := <[typ := 0]> (Workloads c);
                   Capacity_ := Capacity_ c |} m 0) as [H1 H2];
      [simpl; by rewrite lookup_insert_eq|].
    simpl in H1, H2.
    split; [exact H1|].
    intros typ' Hne. rewrite H2 by done. by rewrite lookup_insert_ne.
  - simpl. split; [by rewrite lookup_insert_eq|].
    intros typ' Hne. by rewrite lookup_insert_ne.
Qed.

Lemma user_types_counter (u : ID) (types : list WorkloadType) :
  NoDup types ->
  forall (c : Consumption) (m : many) (typ : WorkloadType),
    Workloads (fst (fold_left (user_type storage since u) types (c, m))) !! typ
    = if decide (typ ∈ types) then
        Some (uint64 (Z.of_nat (length (capacities
                (filter (fun wl => counted since wl = true)
                   (stored_of storage u typ))))))
      else Workloads c !! typ.
Proof.
  induction 1 as [|t types Hnotin Hnd IH]; intros c m typ; cbn [fold_left].
  - rewrite decide_False; [done|]. apply not_elem_of_nil.
  - destruct (user_type storage since u (c, m) t) as [c1 m1] eqn:E.
    pose proof (user_type_counter u t c m) as [H1 H2].
    rewrite E in H1, H2. simpl in H1, H2.
    rewrite IH.
    destruct (decide (typ = t)) as [->|Hne].
    + rewrite (decide_False (P := t ∈ types)) by done.
      rewrite decide_True by apply list_elem_of_here. done.
    + rewrite H2 by done.
      destruct (decide (typ ∈ types)) as [Hin|Hn].
      * rewrite decide_True; [done|]. by apply list_elem_of_further.
      * rewrite decide_False; [done|].
        intros [?|?]%elem_of_cons; done.
Qed.

(** X3. With the types listed once each, the reporter's workload counters
    have an entry for exactly the listed types, and the entry of a type is
    the number (on [uint64]) of the user's workloads of that type that
    are charged; a type whose ids cannot be listed stays at 0. *)
Theorem user_workload_counters (types : list WorkloadType) (u : ID)
    (typ : WorkloadType) :
  NoDup types ->
  Workloads (fst (user storage types since u)) !! typ
  = if decide (typ ∈ types) then
      Some (uint64 (Z.of_nat (length (capacities
              (filter (fun wl => counted since wl = true)
                 (stored_of storage u typ))))))
    else None.
Proof.
  intros Hnd. unfold user.
  destruct (fold_left _ types _) as [c m] eqn:E. simpl.
  change c with (fst (c, m)). rewrite <- E.
  by rewrite user_types_counter.
Qed.

Lemma user_id_errors (typ : WorkloadType) (ids : list ID) :
  forall (c : Consumption) (m : many),
    snd (fold_left (user_id storage since typ) ids (c, m)) = []
    <-> m = [] /\ Forall (readable_id storage since) ids.
Proof.
  induction ids as [|id ids IH]; intros c m; cbn [fold_left].
  - simpl. split; [intros ->; by split|by intros [-> _]].
  - rewrite Forall_cons. unfold user_id at 2, readable_id at 1.
    destruct (Get storage id) as [wl|e].
    + rewrite counted_shouldCount.
      destruct (IsNil (Result_ wl)); simpl.
      { rewrite IH. intuition discriminate. }
      destruct (shouldCount since (Result_ wl)); simpl.
      * destruct (wlCapacity wl) as [cap|e]; rewrite IH; simpl.
        -- intuition.
        -- unfold many_append. split.
           ++ intros [H _]. by apply app_nil in H as [_ ?].
           ++ intros (_ & H & _). by specialize (H eq_refl).
      * rewrite IH. intuition discriminate.
    + rewrite IH. unfold many_append. split.
      * intros [H _]. by apply app_nil in H as [_ ?].
      * intros (_ & [] & _).
Qed.

Lemma user_type_errors (u : ID) (types : list WorkloadType) :
  forall (c : Consumption) (m : many),
    snd (fold_left (user_type storage since u) types (c, m)) = []
    <-> m = [] /\ readable storage types since u.
Proof.
  unfold readable.
  induction types as [|typ types IH]; intros c m; cbn [fold_left].
  - simpl. split; [intros ->; by split|by intros [-> _]].
  - rewrite Forall_cons. unfold user_type at 2.
    destruct (ByUser storage u typ) as [ids|e].
    + destruct (fold_left (user_id storage since typ) ids _) as [c1 m1] eqn:E.
      rewrite IH.
      pose proof (user_id_errors typ ids
                    {| Workloads := <[typ := 0]> (Workloads c);
                       Capacity_ := Capacity_ c |} m) as H.
      rewrite E in H. simpl in H. rewrite H. tauto.
    + rewrite IH. unfold many_append. split.
      * intros [H _]. by apply app_nil in H as [_ ?].
      * intros (_ & [] & _).
Qed.

(** X4. [Reporter.user] returns a nil error exactly when nothing went
    wrong: the ids of every type could be listed, every listed workload
    read, and the capacity of every charged workload computed. *)
Theorem user_error_iff (types : list WorkloadType) (u : ID) :
  snd (user storage types since u) = None
  <-> readable storage types since u.
Proof.
  pose proof (user_type_errors u types
                {| Workloads := ∅; Capacity_ := zeroCapacity |} []) as H.
  unfold user.
  destruct (fold_left _ types _) as [c m]. simpl in *.
  unfold AsError. destruct m; [|split; [discriminate|]].
  - split; [intros _|done]. apply H. done.
  - intros Hr. assert (e :: m = []) by (apply H; done). discriminate.
Qed.

End ReportedFacts.

Lemma tick_slot_witness :
  Reported.align 1000 = 900
  /\ (Reporter.shouldCount (Gridtypes.Timestamp_Time (Reported.align 1000))
        (Gridtypes.Result_ Reporter.deletedInSlot) = true
      <-> Reported.align 1000 <= 600).
Proof.
  split; [reflexivity|].
  refine (proj2 (proj2 (tick_slot 1000
            (Gridtypes.Result_ Reporter.deletedInSlot) _ _))).
  - lia.
  - reflexivity.
Defined.

Lemma shouldCount_earlier_witness :
  Reporter.shouldCount (500 * Second)
    (Gridtypes.Result_ Reporter.deletedInSlot) = true.
Proof.
  apply (shouldCount_earlier (600 * Second) (500 * Second)).
  - unfold Second, Millisecond. lia.
  - reflexivity.
Defined.

Lemma user_workload_counters_witness :
  Reporter.Workloads
    (fst (Reporter.user Reported.twoUsers Reporter.allTypes 0 "twin1"))
    !! Gridtypes.ContainerType
  = Some 2.
Proof.
  rewrite (user_workload_counters Reported.twoUsers 0 Reporter.allTypes
             "twin1" Gridtypes.ContainerType).
  - reflexivity.
  - unfold Reporter.allTypes. repeat constructor; set_solver.
Defined.

(** ** The text of collected errors *)

Section ManyFacts.

Import Reporter Reported.

Lemma anError_nested_ind (P : anError -> Prop) :
  (forall msg, P (Plain msg)) ->
  (forall errs, Forall P errs -> P (Nested errs)) ->
  forall err, P err.
Proof.
  intros HP HN. fix IH 1. intros [msg|errs]; [apply HP|].
  apply HN. induction errs as [|e errs IHerrs]; constructor; [apply IH|done].
Qed.

Lemma fold_left_agree {A B} (f g : A -> B -> A) (l : list B) (a : A) :
  Forall (fun b => forall a, f a b = g a b) l ->
  fold_left f l a = fold_left g l a.
Proof.
  intros H. revert a. induction H as [|b l Hb _ IH]; intros a; simpl; [done|].
  by rewrite Hb, IH.
Qed.

Lemma written_any_prefix (err : anError) :
  forall p q, written p err = written q err.
Proof.
  induction err as [msg|errs IH] using anError_nested_ind; intros p q; simpl;
    [done|].
  apply fold_left_agree.
  eapply Forall_impl; [exact IH|]. intros e He buf. simpl. by rewrite (He _ (q +:+ " ")).
Qed.

(** X5. The prefix handed to [WithPrefix] is never written: the text of a
    [many] is the same for every prefix, also for the errors nested in
    it, and for plain errors it is their messages, each on a line. *)
Theorem WithPrefix_ignores_prefix (p : string) (m : list anError) :
  WithPrefix p m = Error m
  /\ forall msgs : list string, WithPrefix p (map Plain msgs) = many_Error msgs.
Proof.
  split.
  - unfold Error, WithPrefix. apply fold_left_agree.
    apply Forall_forall. intros e _ buf. by rewrite (written_any_prefix e p "").
  - intros msgs. unfold WithPrefix, many_Error.
    generalize EmptyString.
    induction msgs as [|msg msgs IH]; intros buf; simpl; [done|].
    by rewrite IH.
Qed.

End ManyFacts.

(** ** The workloads of a reservation *)

Section LifecycleFacts.

Import Types Lifecycle.

Lemma loop_flat {A} (skip : A -> bool) (mk : A -> Workload) (l : list A)
    (acc : list Workload) :
  fold_left (fun ws wl => if skip wl then ws else ws ++ [mk wl]) l acc
  = acc ++ map mk (filter (fun wl => skip wl = false) l).
Proof.
  revert acc. induction l as [|x l IH]; intros acc; simpl.
  - by rewrite app_nil_r.
  - rewrite IH, filter_cons. destruct (skip x); simpl; [done|].
    by rewrite <- app_assoc.
Qed.

Lemma network_loop_flat (r : Reservation) (nodeID : string)
    (nets : list Network) (acc : list Workload) :
  fold_left
    (fun ws wl =>
       fold_left
         (fun ws nr =>
            if skipped nodeID (NetResource_NodeId nr) then ws
            else ws ++ [workload r (Network_WorkloadId wl) WorkloadTypeNetwork
                          (OfNetwork wl) (NetResource_NodeId nr)])
         (NetworkResources wl) ws)
    nets acc
  = acc
    ++ flat_map
         (fun wl =>
            map (fun nr => workload r (Network_WorkloadId wl)
                             WorkloadTypeNetwork (OfNetwork wl)
                             (NetResource_NodeId nr))
              (filter (fun nr => skipped nodeID (NetResource_NodeId nr) = false)
                 (NetworkResources wl)))
         nets.
Proof.
  revert acc. induction nets as [|wl nets IH]; intros acc; simpl.
  - by rewrite app_nil_r.
  - rewrite (loop_flat (fun nr => skipped nodeID (NetResource_NodeId nr))
               (fun nr => workload r (Network_WorkloadId wl)
                            WorkloadTypeNetwork (OfNetwork wl)
                            (NetResource_NodeId nr))).
    by rewrite IH, <- app_assoc.
Qed.

(** [Workloads], loop by loop. *)
Lemma Workloads_flat (r : Reservation) (nodeID : string) :
  let data := DataReservation (core r) in
  Workloads r nodeID
  = map (fun wl => workload r (Container_WorkloadId wl) WorkloadTypeContainer
                     (OfContainer wl) (Container_NodeId wl))
      (filter (fun wl => skipped nodeID (Container_NodeId wl) = false)
         (Containers data))
    ++ map (fun wl => workload r (Volume_WorkloadId wl) WorkloadTypeVolume
                        (OfVolume wl) (Volume_NodeId wl))
         (filter (fun wl => skipped nodeID (Volume_NodeId wl) = false)
            (Volumes data))
    ++ map (fun wl => workload r (ZDB_WorkloadId wl) WorkloadTypeZDB
                        (OfZDB wl) (ZDB_NodeId wl))
         (filter (fun wl => skipped nodeID (ZDB_NodeId wl) = false)
            (Zdbs data))
    ++ map (fun wl => workload r (K8S_WorkloadId wl) WorkloadTypeKubernetes
                        (OfK8S wl) (K8S_NodeId wl))
         (filter (fun wl => skipped nodeID (K8S_NodeId wl) = false)
            (Kubernetes data))
    ++ flat_map
         (fun wl =>
            map (fun nr => workload r (Network_WorkloadId wl)
                             WorkloadTypeNetwork (OfNetwork wl)
                             (NetResource_NodeId nr))
              (filter (fun nr => skipped nodeID (NetResource_NodeId nr) = false)
                 (NetworkResources wl)))
         (Networks data).
Proof.
  cbn zeta. unfold Workloads.
  rewrite network_loop_flat.
  rewrite (loop_flat (fun wl => skipped nodeID (K8S_NodeId wl))
             (fun wl => workload r (K8S_WorkloadId wl) WorkloadTypeKubernetes
                          (OfK8S wl) (K8S_NodeId wl))).
  rewrite (loop_flat (fun wl => skipped nodeID (ZDB_NodeId wl))
             (fun wl => workload r (ZDB_WorkloadId wl) WorkloadTypeZDB
                          (OfZDB wl) (ZDB_NodeId wl))).
  rewrite (loop_flat (fun wl => skipped nodeID (Volume_NodeId wl))
             (fun wl => workload r (Volume_WorkloadId wl) WorkloadTypeVolume
                          (OfVolume wl) (Volume_NodeId wl))).
  rewrite (loop_flat (fun wl => skipped nodeID (Container_NodeId wl))
             (fun wl => workload r (Container_WorkloadId wl)
                          WorkloadTypeContainer (OfContainer wl)
                          (Container_NodeId wl))).
  simpl. by rewrite <- !app_assoc.
Qed.

Lemma filter_all {A} (P : A -> Prop) `{!forall x, Decision (P x)} (l : list A) :
  (forall x, P x) -> filter P l = l.
Proof.
  intros Hall. induction l as [|x l IH]; [done|].
  by rewrite filter_cons, decide_True, IH.
Qed.

Lemma filter_map_node {A} (node : A -> string) (mk : A -> Workload)
    (nodeID : string) (l : list A) :
  (0 < String.length nodeID)%nat ->
  (forall x, wNodeID (mk x) = node x) ->
  map mk (filter (fun x => skipped nodeID (node x) = false) l)
  = filter (fun w => wNodeID w = nodeID) (map mk l).
Proof.
  intros Hlen Hnode.
  assert (forall n, skipped nodeID n = negb (bool_decide (n = nodeID))) as Hs.
  { intros n. unfold skipped.
    by replace (0 <? Z.of_nat (String.length nodeID)) with true
      by (symmetry; apply Z.ltb_lt; lia). }
  induction l as [|x l IH]; [done|].
  simpl. rewrite !filter_cons, Hnode, <- IH.
  destruct (decide (node x = nodeID)) as [Heq|Hne].
  - rewrite (decide_True (P := skipped nodeID (node x) = false)); [done|].
    by rewrite Hs, bool_decide_eq_true_2.
  - rewrite (decide_False (P := skipped nodeID (node x) = false)); [done|].
    by rewrite Hs, bool_decide_eq_false_2.
Qed.

(** X6. Asking for the workloads of a node gives exactly the workloads of
    the whole reservation that are on that node, in the same order. *)
Theorem Workloads_of_node (r : Reservation) (nodeID : string) :
  (0 < String.length nodeID)%nat ->
  Workloads r nodeID
  = filter (fun w => wNodeID w = nodeID) (Workloads r "").
Proof.
  intros Hlen. rewrite !Workloads_flat. cbn zeta.
  rewrite !filter_app.
  rewrite !(filter_all (fun _ => skipped "" _ = false)) by done.
  rewrite (filter_map_node Container_NodeId) by done.
  rewrite (filter_map_node Volume_NodeId) by done.
  rewrite (filter_map_node ZDB_NodeId) by done.
  rewrite (filter_map_node K8S_NodeId) by done.
  do 4 f_equal.
  induction (Networks (DataReservation (core r))) as [|wl nets IH]; [done|].
  simpl. rewrite filter_app, <- IH. f_equal.
  rewrite (filter_all (fun _ => skipped "" _ = false)) by done.
  by rewrite (filter_map_node NetResource_NodeId).
Qed.

Lemma network_part_length (r : Reservation) (nets : list Network) :
  length (flat_map
            (fun wl =>
               map (fun nr => workload r (Network_WorkloadId wl)
                                WorkloadTypeNetwork (OfNetwork wl)
                                (NetResource_NodeId nr))
                 (filter (fun nr => skipped "" (NetResource_NodeId nr) = false)
                    (NetworkResources wl)))
            nets)
  = length (flat_map NetworkResources nets).
Proof.
  induction nets as [|wl nets IH]; [done|].
  simpl. rewrite !length_app, IH, length_map.
  by rewrite (filter_all (fun _ => skipped "" _ = false)).
Qed.

(** X7. Every workload of a reservation carries the customer as user and
    is marked for deletion exactly when the reservation's next action is
    delete or deleted; the whole reservation has one workload for every
    container, volume, zdb and kubernetes entry and one for every network
    resource of every network. *)
Theorem Workloads_shape (r : Reservation) (nodeID : string) :
  let data := DataReservation (core r) in
  Forall (fun w => wUser w = pretty (CustomerTid (core r))
                   /\ wToDelete w = IsAny r [Delete; Deleted])
    (Workloads r nodeID)
  /\ length (Workloads r "")
     = (length (Containers data) + length (Volumes data)
        + length (Zdbs data) + length (Kubernetes data)
        + length (flat_map NetworkResources (Networks data)))%nat.
Proof.
  cbn zeta. split.
  - rewrite Workloads_flat. cbn zeta.
    assert (forall wid typ content node,
               wUser (workload r wid typ content node)
               = pretty (CustomerTid (core r))
               /\ wToDelete (workload r wid typ content node)
                  = IsAny r [Delete; Deleted]) as Hw.
    { intros. unfold workload, IsAny. simpl. by rewrite orb_false_r. }
    rewrite !Forall_app. repeat split;
      try (apply Forall_forall; intros w (x & -> & _)%list_elem_of_fmap; apply Hw).
    apply Forall_forall. intros w Hin.
    apply list_elem_of_In, in_flat_map in Hin as (wl & _ & Hin).
    apply in_map_iff in Hin as (nr & <- & _). apply Hw.
  - rewrite Workloads_flat. cbn zeta.
    rewrite !length_app, network_part_length, !length_map.
    rewrite !(filter_all (fun _ => skipped "" _ = false)) by done.
    lia.
Qed.

(** X8. The workloads of a network all carry the id of the network: a
    network with resources on two nodes or more gives the reservation
    workloads that share a workload id. *)
Theorem Workloads_network_ids_clash (r : Reservation) (wl : Network) :
  In wl (Networks (DataReservation (core r))) ->
  (2 <= length (NetworkResources wl))%nat ->
  ~ NoDup (map wWorkloadId (Workloads r "")).
Proof.
  intros Hin Hlen Hnd. rewrite Workloads_flat in Hnd. cbn zeta in Hnd.
  rewrite !map_app in Hnd.
  do 4 apply NoDup_app in Hnd as (_ & _ & Hnd).
  apply in_split in Hin as (l1 & l2 & Hsplit). rewrite Hsplit in Hnd.
  rewrite flat_map_app, map_app in Hnd.
  apply NoDup_app in Hnd as (_ & _ & Hnd). simpl in Hnd.
  rewrite map_app in Hnd. apply NoDup_app in Hnd as (Hnd & _ & _).
  rewrite (filter_all (fun _ => skipped "" _ = false)) in Hnd by done.
  destruct (NetworkResources wl) as [|a [|b nrs]]; simpl in Hlen; try lia.
  simpl in Hnd. apply NoDup_cons in Hnd as [Hnotin _].
  apply Hnotin. apply list_elem_of_here.
Qed.

Lemma ResultOf_In (r : Reservation) (id : string) (res : Result) :
  ResultOf r id = Some res -> In res (Results r) /\ WorkloadId res = id.
Proof.
  unfold ResultOf. intros H. apply find_some in H as [Hin Hid].
  split; [done|]. by apply bool_decide_eq_true in Hid.
Qed.

(** X9. A reservation that has a workload is never both all deleted and
    successfully deployed. *)
Theorem AllDeleted_not_deployed (r : Reservation) :
  Workloads r "" <> [] ->
  AllDeleted r = true -> IsSuccessfullyDeployed r = false.
Proof.
  intros Hne Hall. unfold AllDeleted in Hall.
  destruct (Workloads r "") as [|w ws] eqn:Hw; [done|].
  simpl in Hall. apply andb_true_iff in Hall as [Hfirst _].
  destruct (ResultOf r (wWorkloadId w)) as [res|] eqn:Hres; [|discriminate].
  apply bool_decide_eq_true in Hfirst.
  apply ResultOf_In in Hres as [Hin _].
  unfold IsSuccessfullyDeployed. rewrite Hw.
  destruct (_ <=? _)%nat; [|done].
  apply not_true_is_false. intros Hok.
  rewrite forallb_forall in Hok. specialize (Hok res Hin).
  apply bool_decide_eq_true in Hok. congruence.
Qed.

Variable State_byte : ResultStateEnum -> Ascii.ascii.

Lemma append_assoc (a b c : string) : (a +:+ b) +:+ c = a +:+ (b +:+ c).
Proof.
  induction a as [|x a IH]; [reflexivity|].
  change (String x ((a +:+ b) +:+ c) = String x (a +:+ b +:+ c)).
  by rewrite IH.
Qed.

(** X10. The bytes a result is signed over do not say where the message
    ends and the data begins: moving the end of the message to the front
    of the data leaves the encoding as it is. *)
Theorem encode_runs_together (res : Result) (moved : string) :
  encode State_byte
    {| WorkloadId := WorkloadId res; State := State res;
       Message := Message res +:+ moved; DataJson := DataJson res;
       Signature := Signature res; NodeId := NodeId res |}
  = encode State_byte
      {| WorkloadId := WorkloadId res; State := State res;
         Message := Message res; DataJson := moved +:+ DataJson res;
         Signature := Signature res; NodeId := NodeId res |}.
Proof.
  unfold encode. simpl. do 2 f_equal. apply append_assoc.
Qed.

End LifecycleFacts.

Lemma Workloads_of_node_witness :
  map Lifecycle.wWorkloadId (Lifecycle.Workloads Lifecycle.twoNodes "n2")
  = ["9-2"].
Proof.
  rewrite (Workloads_of_node Lifecycle.twoNodes "n2").
  - vm_compute. reflexivity.
  - simpl. lia.
Defined.

Lemma Workloads_network_ids_clash_witness :
  ~ NoDup (map Lifecycle.wWorkloadId
             (Lifecycle.Workloads Lifecycle.twoNodes "")).
Proof.
  apply (Workloads_network_ids_clash Lifecycle.twoNodes
           {| Types.Network_WorkloadId := 2;
              Types.NetworkResources :=
                [{| Types.NetResource_NodeId := "n1" |};
                 {| Types.NetResource_NodeId := "n2" |}] |}).
  - simpl. auto.
  - simpl. lia.
Defined.

Lemma AllDeleted_not_deployed_witness :
  Lifecycle.IsSuccessfullyDeployed Lifecycle.twoNodes = false.
Proof.
  apply AllDeleted_not_deployed.
  - vm_compute. discriminate.
  - vm_compute. reflexivity.
Defined.

(** ** The node's identity *)

Section IdentityFacts.

Import Identity Identityd.

Variable publicKeyOf : list byte -> list byte.
Hypothesis publicKey_size :
  forall seed, length (publicKeyOf seed) = PublicKeySize.

(** X11. A seed file of the right size always loads, and saving the
    loaded key pair writes the very same seed again, to any writable
    path, touching no other file. *)
Theorem LoadSeed_SerializeSeed (path path' : string) (fs fs' : FS)
    (content : list byte) :
  files fs !! path = Some content ->
  length content = SeedSize ->
  writable fs' path' = true ->
  exists k,
    LoadSeed publicKeyOf path fs = Ok k
    /\ SerializeSeed k path' fs'
       = Some ({| files := <[path' := content]> (files fs');
                  writable := writable fs' |}, None).
Proof.
  intros Hfile Hlen Hw. eexists. split.
  - unfold LoadSeed, ReadFile. rewrite Hfile. by rewrite decide_True.
  - unfold SerializeSeed. simpl.
    rewrite (Seed_NewKeyFromSeed publicKeyOf publicKey_size) by done.
    unfold WriteFile. by rewrite Hw.
Qed.


Lemma loadIdentity_loaded (random : result (list byte)) (fs fs' : FS)
    (k : KeyPair) :
  loadIdentity publicKeyOf random fs = Some (Ok k, fs') ->
  LoadSeed publicKeyOf seedPath fs' = Ok k.
Proof.
  unfold loadIdentity.
  destruct (negb (exists_ fs seedPath)).
  - destruct random as [seed|]; [|discriminate].
    destruct (SerializeSeed _ _ _) as [[fs1 [e|]]|]; try discriminate.
    intros [= H1 H2]. by subst.
  - intros [= H1 H2]. by subst.
Qed.

(** X13. The identity of a node is stable: once [loadIdentity] has
    answered a key pair, every later call answers the same key pair and
    leaves the files as they are, whatever the random source would give. *)
Theorem loadIdentity_stable (random random' : result (list byte))
    (fs fs' : FS) (k : KeyPair) :
  loadIdentity publicKeyOf random fs = Some (Ok k, fs') ->
  loadIdentity publicKeyOf random' fs' = Some (Ok k, fs').
Proof.
  intros H. apply loadIdentity_loaded in H.
  unfold loadIdentity.
  assert (exists_ fs' seedPath = true) as ->.
  { unfold exists_. apply bool_decide_eq_true.
    unfold LoadSeed, ReadFile in H.
    destruct (files fs' !! seedPath); [eauto|discriminate]. }
  simpl. by rewrite H.
Qed.

(** X14. A seed file of the wrong size is never replaced: [loadIdentity]
    fails on it, without drawing a new key and without writing. *)
Theorem loadIdentity_bad_seed (random : result (list byte)) (fs : FS)
    (content : list byte) :
  files fs !! seedPath = Some content ->
  length content <> SeedSize ->
  exists err, loadIdentity publicKeyOf random fs = Some (Err err, fs).
Proof.
  intros Hfile Hlen. unfold loadIdentity.
  assert (exists_ fs seedPath = true) as ->.
  { unfold exists_. apply bool_decide_eq_true. rewrite Hfile. eauto. }
  simpl. unfold LoadSeed, ReadFile. rewrite Hfile.
  rewrite decide_False by done. eauto.
Qed.

End IdentityFacts.

Lemma toyPublicKey_size (seed : list Identity.byte) :
  length (Identity.toyPublicKeyOf seed) = Identity.PublicKeySize.
Proof.
  unfold Identity.toyPublicKeyOf, Identity.copy_into.
  rewrite length_take, length_app, length_replicate.
  unfold Identity.PublicKeySize. lia.
Qed.

Lemma LoadSeed_SerializeSeed_witness :
  exists k,
    Identity.LoadSeed Identity.toyPublicKeyOf "/seed"
      {| Identity.files := <["/seed" := Identity.toySeed]> ∅;
         Identity.writable := fun _ => false |} = Ok k
    /\ Identity.SerializeSeed k "/copy" Identity.emptyFS
       = Some ({| Identity.files := <["/copy" := Identity.toySeed]> ∅;
                  Identity.writable := fun _ => true |}, None).
Proof.
  apply (LoadSeed_SerializeSeed Identity.toyPublicKeyOf toyPublicKey_size
           "/seed" "/copy" _ Identity.emptyFS Identity.toySeed).
  - reflexivity.
  - reflexivity.
  - reflexivity.
Defined.


Lemma loadIdentity_stable_witness :
  exists k fs',
    Identityd.loadIdentity Identity.toyPublicKeyOf (Ok Identity.toySeed)
      Identity.emptyFS = Some (Ok k, fs')
    /\ Identityd.loadIdentity Identity.toyPublicKeyOf (Err "no entropy") fs'
       = Some (Ok k, fs').
Proof.
  eexists _, _. split; [reflexivity|].
  apply (loadIdentity_stable Identity.toyPublicKeyOf (Ok Identity.toySeed)
           (Err "no entropy") Identity.emptyFS).
  reflexivity.
Defined.

Lemma loadIdentity_bad_seed_witness :
  exists err,
    Identityd.loadIdentity Identity.toyPublicKeyOf (Ok Identity.toySeed)
      {| Identity.files := <[Identityd.seedPath := [1; 2; 3]]> ∅;
         Identity.writable := fun _ => true |}
    = Some (Err err,
            {| Identity.files := <[Identityd.seedPath := [1; 2; 3]]> ∅;
               Identity.writable := fun _ => true |}).
Proof.
  apply (loadIdentity_bad_seed Identity.toyPublicKeyOf _ _ [1; 2; 3]).
  - reflexivity.
  - simpl. unfold Identity.SeedSize. lia.
Defined.

(** ** Polling: errors and the unordered case *)

Section PollErrorFacts.

Import Explorer.

Variable quickSort : forall A : Type, (A -> A -> bool) -> list A -> list A.

Lemma convert_app_err {W} (conv : W -> result Reservation) (l1 l2 : list W)
    (w : W) (err : error) (acc : list Reservation) :
  Forall (fun w => is_ok (conv w) = true) l1 ->
  conv w = Err err ->
  convert conv (l1 ++ w :: l2) acc = Err err.
Proof.
  intros Hok Herr. revert acc.
  induction Hok as [|x l1 Hx _ IH]; intros acc; simpl.
  - by rewrite Herr.
  - destruct (conv x); [apply IH|discriminate].
Qed.

(** X15. [Poll] answers all of a batch or nothing: when a polled workload
    cannot be converted, the call returns the error of the first such
    workload and no reservation, with or without a provision order. *)
Theorem Poll_first_conversion_error {W} (r : Poller W) (nodeID : string)
    (from lastID : Z) (l1 l2 : list W) (w : W) (err : error) :
  wl r nodeID from = Ok (l1 ++ w :: l2, lastID) ->
  Forall (fun w => is_ok (inputConv r w) = true) l1 ->
  inputConv r w = Err err ->
  Poll quickSort r nodeID from = Err err.
Proof.
  intros Hwl Hok Herr. unfold Poll. rewrite Hwl.
  by rewrite (convert_app_err _ _ _ _ err).
Qed.

(** X16. Without a provision order (a nil map) [Poll] answers the
    converted batch in the order in which it was polled, with the last id
    the explorer gave. *)
Theorem Poll_unordered {W} (r : Poller W) (nodeID : string) (from lastID : Z)
    (out : list Reservation) :
  provisionOrder r = None ->
  Poll quickSort r nodeID from = Ok (out, lastID) ->
  exists polled,
    wl r nodeID from = Ok (polled, lastID)
    /\ Forall2 (fun w x => inputConv r w = Ok x) polled out.
Proof.
  intros Hnil. unfold Poll. rewrite Hnil.
  destruct (wl r nodeID from) as [[polled last]|]; [|discriminate].
  destruct (convert _ polled []) as [batch|] eqn:Hconv; [|discriminate].
  intros [= <- <-].
  apply convert_ok in Hconv as (rs & -> & Hrs). simpl. eauto.
Qed.

End PollErrorFacts.

Lemma Poll_first_conversion_error_witness :
  Explorer.Poll (@insertionSort)
    {| Explorer.wl := fun _ _ => Ok ([1; 2; 3], 3);
       Explorer.inputConv := fun w : Z =>
         if decide (w = 2) then Err "unknown workload type"
         else Ok Explorer.earlier;
       Explorer.provisionOrder := Some Explorer.bootOrder |} "node" 0
  = Err "unknown workload type".
Proof.
  apply (Poll_first_conversion_error (@insertionSort) _ "node" 0 3 [1] [3] 2).
  - reflexivity.
  - repeat constructor.
  - reflexivity.
Defined.

Lemma Poll_unordered_witness :
  exists polled,
    Explorer.wl
      {| Explorer.wl := fun _ _ => Ok ([Explorer.later; Explorer.earlier], 2);
         Explorer.inputConv := fun w => Ok w;
         Explorer.provisionOrder := None |} "node" 0 = Ok (polled, 2)
    /\ Forall2 (fun w x => Ok w = Ok x) polled
         [Explorer.later; Explorer.earlier].
Proof.
  apply (Poll_unordered (@insertionSort)
           {| Explorer.wl := fun _ _ => Ok ([Explorer.later; Explorer.earlier], 2);
              Explorer.inputConv := fun w => Ok w;
              Explorer.provisionOrder := None |} "node" 0 2).
  - reflexivity.
  - reflexivity.
Defined.

(** ** The daemon's entry point: orphan nodes and a clean return *)

Section ActionRunFacts.

Import Gridtypes Provisiond.

Ltac run_cases w fin :=
  destruct w as [root clears mk eg rs rc nr fss nres ct sapi tw ad mq fb pn
                   mb nrep sa ls];
  unfold trace, action; simpl;
  destruct clears; simpl; [|solve [fin]];
  destruct mk; simpl; [solve [fin]|];
  destruct eg as [[orphan url]|]; simpl; [|solve [fin]];
  destruct orphan; simpl; [solve [fin]|];
  destruct rs; simpl; [solve [fin]|];
  destruct rc; simpl; [solve [fin]|];
  destruct nr; simpl; [|solve [fin]];
  destruct fss; simpl; [solve [fin]|];
  destruct nres; simpl; [solve [fin]|];
  destruct ct; simpl; [solve [fin]|];
  destruct sapi; simpl; [solve [fin]|];
  destruct tw; simpl; [|solve [fin]];
  destruct ad; simpl; [|solve [fin]];
  destruct mq; simpl; [solve [fin]|];
  destruct pn; simpl; [solve [fin]|];
  destruct nrep; simpl; [solve [fin]|];
  destruct sa; simpl; [solve [fin]|];
  destruct ls; simpl; [solve [fin]|].

(** X17. On an orphan node the daemon provisions nothing: no engine is
    built, no goroutine is started, and [action] never returns nil. *)
Theorem action_orphan (w : World) (env : Environment) :
  environmentGet w = Ok env ->
  Orphan env = true ->
  configured (trace w) = None
  /\ (forall g, ~ In (EvGo g) (trace w))
  /\ snd (action w) <> Return None.
Proof.
  destruct w as [root clears mk eg rs rc nr fss nres ct sapi tw ad mq fb pn
                   mb nrep sa ls].
  simpl. intros -> Horphan. destruct env as [orphan url].
  simpl in Horphan. subst orphan. unfold trace, action. simpl.
  destruct clears, mk; simpl;
    (split; [done|]; split; [|done]);
    intros g Hin; simpl in Hin; intuition discriminate.
Qed.

(** X18. [action] returns nil only at the end of a complete start: the
    runtime upgrade, the engine, the reporter and the bus server were
    started in this order, the APIs set up, and the HTTP server has been
    closed. *)
Theorem action_returns_nil (w : World) :
  snd (action w) = Return None ->
  exists pre,
    trace w
    = pre ++ [EvRuntimeUpgrade; EvGo EngineRun; EvMarkBooted; EvNewReported;
              EvGo ReporterRun; EvGo ServerRun; EvSetupAPIs; EvListenAndServe].
Proof.
  run_cases w ltac:(discriminate).
  intros _.
  match goal with
  | |- exists pre, ?l = _ => exists (firstn 16 l)
  end.
  reflexivity.
Qed.

End ActionRunFacts.

Lemma action_orphan_witness :
  Provisiond.configured
    (Provisiond.trace
       {| Provisiond.rootDir := "/var/cache/modules/provisiond";
          Provisiond.limitedCacheClears := true;
          Provisiond.mkdirRoot := None;
          Provisiond.environmentGet :=
            Ok {| Provisiond.Orphan := true;
                  Provisiond.SubstrateURL := "wss://tfchain" |};
          Provisiond.newRedisServer := None;
          Provisiond.newRedisClient := None;
          Provisiond.networkBecomesReady := true;
          Provisiond.newFSStore := None;
          Provisiond.nodeReserved := None;
          Provisiond.capacityTotal := None;
          Provisiond.newStatisticsAPI := None;
          Provisiond.newSubstrateTwins := Ok "twins";
          Provisiond.newSubstrateAdmins := Ok "admins";
          Provisiond.mkdirQueues := None;
          Provisiond.isFirstBoot := true;
          Provisiond.provisionNew := None;
          Provisiond.markBooted := None;
          Provisiond.newReported := None;
          Provisiond.setupAPIs := None;
          Provisiond.listenAndServe := None |})
  = None.
Proof.
  refine (proj1 (action_orphan _
            {| Provisiond.Orphan := true;
               Provisiond.SubstrateURL := "wss://tfchain" |} _ _)).
  - reflexivity.
  - reflexivity.
Defined.

Lemma action_returns_nil_witness :
  exists pre,
    Provisiond.trace Provisiond.bootWorld
    = pre ++ [Provisiond.EvRuntimeUpgrade;
              Provisiond.EvGo Provisiond.EngineRun;
              Provisiond.EvMarkBooted; Provisiond.EvNewReported;
              Provisiond.EvGo Provisiond.ReporterRun;
              Provisiond.EvGo Provisiond.ServerRun;
              Provisiond.EvSetupAPIs; Provisiond.EvListenAndServe].
Proof.
  apply (action_returns_nil Provisiond.bootWorld). reflexivity.
Defined.

(** ** Container provisioning: failures and volume mounts *)

Section ContainerMoreFacts.

Import Provision.

Variable m : Modules.




Lemma MkdirAll_containers (dir : string) (n : Node) :
  containers (snd (MkdirAll m dir n)) = containers n.
Proof. unfold MkdirAll. by destruct (mkdirAll m dir). Qed.


(** The loop over the mounts: it keeps the containers, and when it gets
    through, every volume has been checked and bound. *)
Lemma bindMounts_spec (user mnt : string) (todo : list Mount) :
  forall (acc : list MountInfo) (n : Node),
    containers (snd (bindMounts m user mnt todo acc n)) = containers n
    /\ forall mounts,
         fst (bindMounts m user mnt todo acc n) = Ok mounts ->
         exists new,
           mounts = acc ++ new
           /\ Forall2
                (fun mt mi =>
                   ownerOf m (VolumeID mt) = Ok user
                   /\ volumePath m (VolumeID mt) = Ok (Source mi)
                   /\ Target mi = path_Join m "/" (Mountpoint mt)
                   /\ MountType mi = "none" /\ Options mi = ["bind"])
                todo new.
Proof.
  induction todo as [|mt todo IH]; intros acc n; simpl.
  - split; [done|]. intros mounts [= <-]. exists []. by rewrite app_nil_r.
  - unfold andThen, answer, Wrapf.
    destruct (ownerOf m (VolumeID mt)) as [owner|] eqn:Howner;
      [|split; [done|discriminate]].
    destruct (decide (owner <> user)) as [|Hown];
      [split; [done|discriminate]|].
    apply dec_stable in Hown. subst owner.
    pose proof (MkdirAll_containers
                  (path_Join m mnt (path_Join m "/" (Mountpoint mt))) n) as Hmk.
    destruct (MkdirAll m _ n) as [[[]|] n1]; simpl in Hmk;
      [|split; [done|discriminate]].
    destruct (volumePath m (VolumeID mt)) as [source|] eqn:Hpath;
      [|split; [done|discriminate]].
    destruct (IH (acc ++ [{| Source := source;
                             Target := path_Join m "/" (Mountpoint mt);
                             MountType := "none"; Options := ["bind"] |}]) n1)
      as [IH1 IH2].
    split; [by rewrite IH1|].
    intros mounts Hok. destruct (IH2 mounts Hok) as (new & -> & Hnew).
    eexists (_ :: new). rewrite <- app_assoc. split; [done|].
    constructor; [|done]. by repeat split.
Qed.


(** X20. A container is only ever started on volumes of the reservation's
    user: when a provision call deploys the container, every mount asked
    for is a volume owned by that user, bound (type none, option bind) at
    the mount point taken from the root, in the order asked; and the
    container is known under the reservation's id. *)
Theorem ContainerProvision_mounts_owned (r : Reservation) (n n' : Node)
    (config : Container) (id : string) :
  containers n !! ("ns" +:+ User r, ID r) = None ->
  json_Unmarshal m (Data r) = Ok config ->
  ContainerProvision m r n = (Ok id, n') ->
  exists data,
    containers n' !! ("ns" +:+ User r, ID r) = Some data
    /\ Name data = ID r
    /\ Forall2
         (fun mt mi =>
            ownerOf m (VolumeID mt) = Ok (User r)
            /\ volumePath m (VolumeID mt) = Ok (Source mi)
            /\ Target mi = path_Join m "/" (Mountpoint mt)
            /\ MountType mi = "none" /\ Options mi = ["bind"])
         (Mounts config) (CMounts data).
Proof.
  intros Hnone Hjson. unfold ContainerProvision.
  unfold Inspect at 1. rewrite Hnone.
  destruct (containerd m); simpl;
    unfold andThen, answer; rewrite Hjson;
    (destruct (Join m _ n) as [[ns|] n1]; [|discriminate]);
    (destruct (FlistMount m _ n1) as [[mnt|] n2]; [|discriminate]);
    pose proof (proj2 (bindMounts_spec (User r) mnt (Mounts config) [] n2)) as Hb;
    (destruct (bindMounts m _ mnt _ _ n2) as [[mounts|] n3]; [|discriminate]);
    (destruct (Run m _ _ n3) as [[id'|] n4] eqn:Hrun; [|discriminate]);
    intros [= <- <-];
    apply Run_ok in Hrun as (_ & _ & Hc); simpl in Hc;
    destruct (Hb mounts eq_refl) as (new & -> & Hnew);
    eexists; (split; [exact Hc|]); simpl; (split; [done|]); exact Hnew.
Qed.

End ContainerMoreFacts.


Lemma ContainerProvision_mounts_owned_witness :
  exists data,
    Provision.containers
      (snd (Provision.ContainerProvision Provision.goodModules Provision.redis
              Provision.emptyNode)) !! ("nsuser1", "r-1") = Some data
    /\ Provision.Name data = "r-1"
    /\ Forall2
         (fun mt mi =>
            Provision.ownerOf Provision.goodModules (Provision.VolumeID mt)
            = Ok "user1"
            /\ Provision.volumePath Provision.goodModules (Provision.VolumeID mt)
               = Ok (Provision.Source mi)
            /\ Provision.Target mi
               = Provision.path_Join Provision.goodModules "/"
                   (Provision.Mountpoint mt)
            /\ Provision.MountType mi = "none"
            /\ Provision.Options mi = ["bind"])
         [{| Provision.VolumeID := "vol1"; Provision.Mountpoint := "data" |}]
         (Provision.CMounts data).
Proof.
  apply (ContainerProvision_mounts_owned Provision.goodModules Provision.redis
           Provision.emptyNode
           (snd (Provision.ContainerProvision Provision.goodModules
                   Provision.redis Provision.emptyNode))
           {| Provision.FList := "https://hub.grid.tf/tf-official-apps/redis.flist";
              Provision.Env := [("A", "1")];
              Provision.Entrypoint := "/bin/redis-server";
              Provision.Interactive := false;
              Provision.Mounts :=
                [{| Provision.VolumeID := "vol1";
                    Provision.Mountpoint := "data" |}];
              Provision.Network_ := {| Provision.NetwokID := "net1" |} |}
           "r-1").
  - reflexivity.
  - reflexivity.
  - vm_compute. reflexivity.
Defined.

(** ** 0-db namespaces *)

Section ZdbNamespaceFacts.

Import Backoff Zdb ZdbNamespace.

(** X21. The mapping of namespaces to containers: a namespace that was
    set is found with its container, setting one namespace leaves the
    others as they are, and nothing is found in a mapping never set. *)
Theorem ZDBMapping_Get_Set (z : ZDBMapping) (namespace container other : string) :
  Get (Set_ z namespace container) namespace = (container, true)
  /\ (other <> namespace ->
      Get (Set_ z namespace container) other = Get z other)
  /\ Get None namespace = ("", false).
Proof.
  unfold Get, Set_. split; [by rewrite lookup_insert_eq|]. split; [|done].
  intros Hne. rewrite lookup_insert_ne by done.
  destruct z as [m|]; simpl; [done|]. by rewrite lookup_empty.
Qed.

Lemma find_first {A} (f : A -> bool) (l : list A) (x : A) :
  List.find f l = Some x ->
  exists l1 l2,
    l = l1 ++ x :: l2 /\ Forall (fun y => f y = false) l1 /\ f x = true.
Proof.
  induction l as [|y l IH]; simpl; [discriminate|].
  destruct (f y) eqn:E.
  - intros [= <-]. exists [], l. by repeat split.
  - intros (l1 & l2 & -> & Hl1 & Hx)%IH.
    exists (y :: l1), l2. repeat split; [|done]. by constructor.
Qed.

Lemma find_nothing {A} (f : A -> bool) (l : list A) :
  List.find f l = None <-> Forall (fun y => f y = false) l.
Proof.
  induction l as [|y l IH]; simpl; [by split; [constructor|]|].
  rewrite Forall_cons. destruct (f y); [|by rewrite IH; intuition].
  split; [discriminate|]. by intros [? _].
Qed.

(** X22. [getIP] answers the first public address of the list: every
    address before it is not public, and the address itself is an IPv6
    address that is neither loopback nor link-local; it fails exactly when
    no address of the list is public. *)
Theorem getIP_first_public (ips : list IP) :
  (forall ip,
      getIP (Ok ips) = Ok ip ->
      (exists before after,
          ips = before ++ ip :: after
          /\ Forall (fun a => isPublic a = false) before)
      /\ To4 ip = false /\ IsLoopback ip = false
      /\ IsLinkLocalUnicast ip = false /\ IsLinkLocalMulticast ip = false
      /\ IsInterfaceLocalMulticast ip = false)
  /\ (is_err (getIP (Ok ips)) = true
      <-> Forall (fun a => isPublic a = false) ips).
Proof.
  unfold getIP. split.
  - intros ip. destruct (List.find isPublic ips) as [ip'|] eqn:E; [|discriminate].
    intros [= <-]. apply find_first in E as (l1 & l2 & -> & Hl1 & Hpub).
    split; [eauto|]. unfold isPublic in Hpub.
    destruct (To4 ip'); [discriminate|].
    apply negb_true_iff in Hpub. repeat (apply orb_false_iff in Hpub as [Hpub ?]).
    by repeat split.
  - rewrite <- find_nothing.
    destruct (List.find isPublic ips); simpl; split; (done || discriminate).
Qed.

Variable w : World.

(** X23. When [zdbDecommission] returns nil, one of three things has
    happened: the namespace was not in the mapping and nothing was done;
    or its container showed no public address and nothing was done
    (the error wrapped there is nil); or the namespace was deleted on the
    0-db and then its storage claimed back, on a connection that was
    closed. *)
Theorem zdbDecommission_nil (zdbMap : ZDBMapping) (r : Reservation)
    (ops : list Op) :
  zdbDecommission w zdbMap r = (None, ops) ->
  (snd (Get zdbMap (ID r)) = false /\ ops = [])
  \/ (exists c ips,
         inspect w (fst (Get zdbMap (ID r))) = Ok c
         /\ addrs w (NetNs c) = Ok ips
         /\ Forall (fun a => isPublic a = false) ips
         /\ ops = [])
  \/ (exists addr volume size,
         ops = [Connect addr; DeleteNamespace (ID r); Claim volume size; Close]).
Proof.
  unfold zdbDecommission.
  destruct (json_Unmarshal w (Data r)) as [config|]; [|discriminate].
  destruct (Get zdbMap (ID r)) as [cid ok]. simpl.
  destruct ok; simpl; [|intros [= <-]; by left].
  destruct (inspect w cid) as [c|]; [|discriminate].
  destruct (addrs w (NetNs c)) as [ips|] eqn:Haddrs; [|discriminate].
  destruct (firstPublic ips) as [ip|] eqn:Hip.
  - destruct (connect w _); [discriminate|].
    destruct (deleteNamespace w _); [discriminate|].
    destruct (MountSources c) as [|source ?]; [discriminate|].
    destruct (claim w _ _); [discriminate|].
    intros [= <-]. right. right. eauto.
  - simpl. intros [= <-]. right. left. exists c, ips.
    repeat split; [done|]. by apply find_nothing.
Qed.

(** X24. A namespace whose container shows no public address: both
    [zdbProvision] and [zdbDecommission] return a nil error, the first
    with a nil result, the second without deleting the namespace. *)
Theorem zdb_no_public_address (fuel : nat) (zdbMap : ZDBMapping)
    (r : Reservation) (now : Time) (config : ZDB) (cid : string)
    (c : Inspected) (ips : list IP) :
  json_Unmarshal w (Data r) = Ok config ->
  Get zdbMap (ID r) = (cid, true) ->
  inspect w cid = Ok c ->
  addrs w (NetNs c) = Ok ips ->
  Forall (fun a => isPublic a = false) ips ->
  zdbProvision fuel w zdbMap r now = Some ((None, None), zdbMap, [])
  /\ zdbDecommission w zdbMap r = (None, []).
Proof.
  intros Hjson Hget Hins Haddrs Hnone. apply find_nothing in Hnone.
  unfold zdbProvision, zdbDecommission, lookupIP, firstPublic.
  rewrite Hjson, Hget. simpl. by rewrite Hins, Haddrs, Hnone.
Qed.

(** X25. Provisioning a namespace that is in the mapping does nothing on
    the node or on the 0-db and leaves the mapping as it is, however the
    call ends. *)
Theorem zdbProvision_known (fuel : nat) (zdbMap zdbMap' : ZDBMapping)
    (r : Reservation) (now : Time) (config : ZDB)
    (ret : option zdbResult * option error) (ops : list Op) :
  json_Unmarshal w (Data r) = Ok config ->
  snd (Get zdbMap (ID r)) = true ->
  zdbProvision fuel w zdbMap r now = Some (ret, zdbMap', ops) ->
  zdbMap' = zdbMap /\ ops = []
  /\ forall res, fst ret = Some res ->
       Namespace res = ID r
       /\ exists ip, lookupIP w (fst (Get zdbMap (ID r))) None = inl ip
                     /\ Addr res = zdbConnectionURL (text ip) zdbPort.
Proof.
  intros Hjson Hok. unfold zdbProvision. rewrite Hjson.
  destruct (Get zdbMap (ID r)) as [cid ok]. simpl in *. subst ok.
  destruct (lookupIP w cid None) as [ip|err]; intros [= <- <- <-];
    (split; [done|]); (split; [done|]); simpl; intros res Hres;
    [|discriminate].
  injection Hres as <-. simpl. eauto.
Qed.

Lemma createNamespaceAt_mapping (config : ZDB) (nsID : string) (ip : IP)
    (zdbMap : ZDBMapping) (ops : list Op) :
  snd (fst (createNamespaceAt w config nsID ip zdbMap ops)) = zdbMap.
Proof.
  unfold createNamespaceAt.
  destruct (connect w _); [done|].
  destruct (createNamespace w nsID); [done|].
  destruct (decide (Password config <> ""));
    [destruct (namespaceSetPassword w nsID _); [done|]|];
    (destruct (namespaceSetPublic w nsID _); [done|]);
    by destruct (namespaceSetSize w nsID _).
Qed.

(** X26. A namespace made on a 0-db container that runs already is not
    entered into the mapping ([Set] is only reached when the container is
    created), so decommissioning its reservation afterwards returns nil
    and does nothing. *)
Theorem zdbProvision_on_running_container (fuel : nat)
    (zdbMap zdbMap' : ZDBMapping) (r : Reservation) (now : Time)
    (config : ZDB) (cid vPath : string) (c : Inspected)
    (ret : option zdbResult * option error) (ops : list Op) :
  json_Unmarshal w (Data r) = Ok config ->
  snd (Get zdbMap (ID r)) = false ->
  allocate w (DiskType config) (uint64 (Size config * gigabyte w)) (Mode config)
  = Ok (cid, vPath) ->
  inspect w cid = Ok c ->
  zdbProvision fuel w zdbMap r now = Some (ret, zdbMap', ops) ->
  zdbMap' = zdbMap
  /\ zdbDecommission w zdbMap' r = (None, []).
Proof.
  intros Hjson Hget Halloc Hins. unfold zdbProvision.
  rewrite Hjson. destruct (Get zdbMap (ID r)) as [cid0 ok] eqn:HG.
  simpl in Hget. subst ok. rewrite Halloc, Hins.
  assert (zdbDecommission w zdbMap r = (None, [])) as Hdec.
  { unfold zdbDecommission. by rewrite Hjson, HG. }
  destruct (lookupIP w cid _) as [ip|err].
  - intros [= H]. pose proof (createNamespaceAt_mapping config (ID r) ip zdbMap
      [Allocate (DiskType config) (uint64 (Size config * gigabyte w)) (Mode config)])
      as Hmap.
    rewrite H in Hmap. simpl in Hmap. by subst.
  - intros [= <- <- <-]. done.
Qed.

Lemma createNamespaceAt_closes (config : ZDB) (nsID : string) (ip : IP)
    (zdbMap : ZDBMapping) (ops : list Op) :
  let ops' := snd (createNamespaceAt w config nsID ip zdbMap ops) in
  ops' = ops \/ last ops' = Some Close.
Proof.
  cbn zeta. unfold createNamespaceAt.
  destruct (connect w _); [by left|]. right.
  destruct (createNamespace w nsID); [apply last_snoc|].
  destruct (decide (Password config <> ""));
    [destruct (namespaceSetPassword w nsID _); [apply last_snoc|]|];
    (destruct (namespaceSetPublic w nsID _); [apply last_snoc|]);
    destruct (namespaceSetSize w nsID _); apply last_snoc.
Qed.

(** X27. No connection to the 0-db outlives the call: whenever
    [zdbProvision] or [zdbDecommission] has connected, the last thing it
    does is to close the connection. *)
Theorem zdb_connection_closed (fuel : nat) (zdbMap zdbMap' : ZDBMapping)
    (r : Reservation) (now : Time)
    (ret : option zdbResult * option error) (ops : list Op) :
  (zdbProvision fuel w zdbMap r now = Some (ret, zdbMap', ops) ->
   (exists addr, In (Connect addr) ops) -> last ops = Some Close)
  /\ ((exists addr, In (Connect addr) (snd (zdbDecommission w zdbMap r))) ->
      last (snd (zdbDecommission w zdbMap r)) = Some Close).
Proof.
  assert (forall (l : list Op),
             (forall addr, ~ In (Connect addr) l) ->
             forall config nsID ip z ops',
               snd (createNamespaceAt w config nsID ip z l) = ops' ->
               (exists addr, In (Connect addr) ops') -> last ops' = Some Close)
    as Hat.
  { intros l Hl config nsID ip z ops' <- [addr Hin].
    destruct (createNamespaceAt_closes config nsID ip z l) as [Heq|Hlast];
      [|done].
    rewrite Heq in Hin. by destruct (Hl addr). }
  split.
  - unfold zdbProvision.
    destruct (json_Unmarshal w (Data r)) as [config|];
      [|intros [= <- <- <-] [? []]].
    destruct (Get zdbMap (ID r)) as [cid0 ok]. destruct ok.
    { destruct (lookupIP w cid0 None); intros [= <- <- <-] [? []]. }
    destruct (allocate w _ _ _) as [[cid vPath]|];
      [|intros [= <- <- <-] [? []]].
    destruct (inspect w cid) as [c|err].
    + destruct (lookupIP w cid _) as [ip|err].
      * intros [= H]. eapply Hat; [|by rewrite H].
        intros addr [?|[]]; discriminate.
      * intros [= <- <- <-] [? [?|[]]]; discriminate.
    + destruct (negb (Contains err "not found")).
      { intros [= <- <- <-] [? [?|[]]]; discriminate. }
      destruct (createZdbContainer fuel _ cid now) as [[[ip|e] did]|];
        [| |discriminate].
      * intros [= H]. eapply Hat; [|by rewrite H].
        intros addr [?|[?|[]]]; discriminate.
      * intros [= <- <- <-] [? [?|[?|[]]]]; discriminate.
  - unfold zdbDecommission.
    destruct (json_Unmarshal w (Data r)) as [config|]; [|intros [? []]].
    destruct (Get zdbMap (ID r)) as [cid ok]. destruct ok; [|intros [? []]].
    simpl.
    destruct (inspect w cid) as [c|]; [|intros [? []]].
    destruct (addrs w (NetNs c)) as [ips|]; [|intros [? []]].
    destruct (firstPublic ips) as [ip|]; [|intros [? []]].
    destruct (connect w _); [intros [? []]|].
    destruct (deleteNamespace w _); [done|].
    destruct (MountSources c) as [|source ?]; [done|].
    by destruct (claim w _ _).
Qed.

End ZdbNamespaceFacts.

Section ZdbNamespaceExamples.

Import Backoff Zdb ZdbNamespace.

Lemma ZDBMapping_Get_Set_witness :
  "ns-2" <> "ns-1"
  /\ Get (Set_ None "ns-1" "zdb-1") "ns-2" = Get None "ns-2".
Proof.
  assert ("ns-2" <> "ns-1") as Hne by discriminate.
  split; [exact Hne|].
  exact (proj1 (proj2 (ZDBMapping_Get_Set None "ns-1" "zdb-1" "ns-2")) Hne).
Defined.

Lemma getIP_first_public_witness :
  getIP (Ok [linkLocal; publicIP]) = Ok publicIP
  /\ (exists before after,
         [linkLocal; publicIP] = before ++ publicIP :: after
         /\ Forall (fun a => isPublic a = false) before)
  /\ To4 publicIP = false.
Proof.
  split; [reflexivity|].
  destruct (proj1 (getIP_first_public [linkLocal; publicIP]) publicIP eq_refl)
    as (Hfirst & Hv4 & _).
  split; [exact Hfirst | exact Hv4].
Defined.

Lemma zdbDecommission_nil_witness :
  zdbDecommission running (Set_ None "ns-1" "zdb-1") ns1
  = (None, [Connect "tcp://[2a02:1802:5e::1]:9900"; DeleteNamespace "ns-1";
            Claim "zdb-1" 10; Close])
  /\ exists addr volume size,
      [Connect "tcp://[2a02:1802:5e::1]:9900"; DeleteNamespace "ns-1";
       Claim "zdb-1" 10; Close]
      = [Connect addr; DeleteNamespace (ID ns1); Claim volume size; Close].
Proof.
  split; [vm_compute; reflexivity|].
  destruct (zdbDecommission_nil running (Set_ None "ns-1" "zdb-1") ns1
              [Connect "tcp://[2a02:1802:5e::1]:9900"; DeleteNamespace "ns-1";
               Claim "zdb-1" 10; Close])
    as [[_ Hnil]|[(c & ips & _ & _ & _ & Hnil)|Hdone]];
    [vm_compute; reflexivity | discriminate Hnil | discriminate Hnil
    | exact Hdone].
Defined.

Lemma zdb_no_public_address_witness :
  Get (Set_ None "ns-1" "zdb-1") (ID ns1) = ("zdb-1", true)
  /\ zdbProvision 0 hidden (Set_ None "ns-1" "zdb-1") ns1 0
     = Some ((None, None), Set_ None "ns-1" "zdb-1", [])
  /\ zdbDecommission hidden (Set_ None "ns-1" "zdb-1") ns1 = (None, []).
Proof.
  split; [vm_compute; reflexivity|].
  apply (zdb_no_public_address hidden 0 (Set_ None "ns-1" "zdb-1") ns1 0
           {| Size := 10; Mode := "seq"; Password := "secret";
              DiskType := "ssd"; Public := false |}
           "zdb-1"
           {| NetNs := "zdb-ns-1"; MountSources := ["/mnt/pool1/zdb-1"] |}
           [linkLocal]);
    [reflexivity | vm_compute; reflexivity | reflexivity | reflexivity
    | repeat constructor].
Defined.

Lemma zdbProvision_known_witness :
  snd (Get (Set_ None "ns-1" "zdb-1") (ID ns1)) = true
  /\ zdbProvision 0 running (Set_ None "ns-1" "zdb-1") ns1 0
     = Some ((Some {| Addr := "tcp://[2a02:1802:5e::1]:9900";
                      Namespace := "ns-1" |}, None),
             Set_ None "ns-1" "zdb-1", [])
  /\ Set_ None "ns-1" "zdb-1" = Set_ None "ns-1" "zdb-1"
  /\ @nil Op = [].
Proof.
  assert (snd (Get (Set_ None "ns-1" "zdb-1") (ID ns1)) = true) as Hok
      by (vm_compute; reflexivity).
  assert (zdbProvision 0 running (Set_ None "ns-1" "zdb-1") ns1 0
          = Some ((Some {| Addr := "tcp://[2a02:1802:5e::1]:9900";
                           Namespace := "ns-1" |}, None),
                  Set_ None "ns-1" "zdb-1", [])) as Hrun
      by (vm_compute; reflexivity).
  split; [exact Hok|]. split; [exact Hrun|].
  destruct (zdbProvision_known running 0 _ _ ns1 0
              {| Size := 10; Mode := "seq"; Password := "secret";
                 DiskType := "ssd"; Public := false |} _ _
              eq_refl Hok Hrun) as (Hmap & Hops & _).
  split; [exact Hmap | exact Hops].
Defined.

Lemma zdbProvision_on_running_container_witness :
  snd (Get None (ID ns1)) = false
  /\ zdbProvision 0 running None ns1 0
     = Some ((Some {| Addr := "tcp://[2a02:1802:5e::1]:9900";
                      Namespace := "ns-1" |}, None),
             None,
             [Allocate "ssd" 10737418240 "seq";
              Connect "tcp://[2a02:1802:5e::1]:9900";
              CreateNamespace "ns-1"; NamespaceSetPassword "ns-1" "secret";
              NamespaceSetPublic "ns-1" false;
              NamespaceSetSize "ns-1" 10737418240; Close])
  /\ zdbDecommission running None ns1 = (None, []).
Proof.
  assert (zdbProvision 0 running None ns1 0
          = Some ((Some {| Addr := "tcp://[2a02:1802:5e::1]:9900";
                           Namespace := "ns-1" |}, None),
                  None,
                  [Allocate "ssd" 10737418240 "seq";
                   Connect "tcp://[2a02:1802:5e::1]:9900";
                   CreateNamespace "ns-1"; NamespaceSetPassword "ns-1" "secret";
                   NamespaceSetPublic "ns-1" false;
                   NamespaceSetSize "ns-1" 10737418240; Close])) as Hrun
      by (vm_compute; reflexivity).
  split; [reflexivity|]. split; [exact Hrun|].
  exact (proj2 (zdbProvision_on_running_container running 0 None None ns1 0
                  {| Size := 10; Mode := "seq"; Password := "secret";
                     DiskType := "ssd"; Public := false |}
                  "zdb-1" "/mnt/pool1/zdb-1"
                  {| NetNs := "zdb-ns-1"; MountSources := ["/mnt/pool1/zdb-1"] |}
                  _ _ eq_refl eq_refl eq_refl eq_refl Hrun)).
Defined.

Lemma zdb_connection_closed_witness :
  (exists addr,
      In (Connect addr) (snd (zdbDecommission running (Set_ None "ns-1" "zdb-1") ns1)))
  /\ last (snd (zdbDecommission running (Set_ None "ns-1" "zdb-1") ns1))
     = Some Close.
Proof.
  assert (exists addr,
             In (Connect addr)
               (snd (zdbDecommission running (Set_ None "ns-1" "zdb-1") ns1)))
    as Hin by (exists "tcp://[2a02:1802:5e::1]:9900"; vm_compute; left; reflexivity).
  split; [exact Hin|].
  exact (proj2 (zdb_connection_closed running 0 (Set_ None "ns-1" "zdb-1") None
                  ns1 0 (None, None) []) Hin).
Defined.

End ZdbNamespaceExamples.

Section ZdbCleanupFacts.

Import Backoff Zdb ZdbNamespace.

(** X28. [createZdbContainer] cleans up after itself: once the flist is
    mounted, a call that fails ends by unmounting it, and a container that
    was started is deleted before that; a call that succeeds unmounts and
    deletes nothing. *)
Theorem createZdbContainer_cleans_up (fuel : nat) (a : Answers)
    (name rootFS : string) (now : Time) (ret : result IP)
    (did : list Effect) :
  flistMount a = Ok rootFS ->
  createZdbContainer fuel a name now = Some (ret, did) ->
  (is_err ret = true ->
   last did = Some (FlistUmount rootFS)
   /\ (containerRun a = None -> In (ContainerRun name) did ->
       did = [FlistMount zdbFlistURL; ZDBPrepare; ContainerRun name;
              ContainerDelete name; FlistUmount rootFS]))
  /\ (is_ok ret = true ->
      did = [FlistMount zdbFlistURL; ZDBPrepare; ContainerRun name]).
Proof.
  intros Hmount. unfold createZdbContainer. rewrite Hmount.
  destruct (zdbPrepare a) as [netNs|err].
  - destruct (containerRun a) as [err|].
    + intros [= <- <-]. split; [|discriminate]. by split.
    + destruct (RetryNotify _ _ _ _) as [[[[ip|err] ?] ?]|];
        intros [= <- <-]; split; done.
  - intros [= <- <-]. split; [|discriminate]. intros _. split; [done|].
    intros _ [?|[?|[?|[]]]]; discriminate.
Qed.

Lemma createNamespaceAt_ret (w : World) (config : ZDB) (nsID : string)
    (ip : IP) (zdbMap : ZDBMapping) (ops : list Op) :
  match fst (fst (createNamespaceAt w config nsID ip zdbMap ops)) with
  | (Some res, None) =>
      Namespace res = nsID /\ Addr res = zdbConnectionURL (text ip) zdbPort
  | (None, Some _) => True
  | _ => False
  end.
Proof.
  unfold createNamespaceAt.
  destruct (connect w _); [done|].
  destruct (createNamespace w nsID); [done|].
  destruct (decide (Password config <> ""));
    [destruct (namespaceSetPassword w nsID _); [done|]|];
    (destruct (namespaceSetPublic w nsID _); [done|]);
    by destruct (namespaceSetSize w nsID _).
Qed.

Lemma lookupIP_nil (w : World) (containerID : string) (msg : option string) :
  lookupIP w containerID msg = inr None ->
  exists c ips,
    inspect w containerID = Ok c /\ addrs w (NetNs c) = Ok ips
    /\ Forall (fun a => isPublic a = false) ips.
Proof.
  unfold lookupIP.
  destruct (inspect w containerID) as [c|]; [|discriminate].
  destruct (addrs w (NetNs c)) as [ips|] eqn:Haddrs; [|discriminate].
  destruct (firstPublic ips) eqn:E; [discriminate|].
  intros _. exists c, ips. split; [done|]. split; [done|].
  by apply find_nothing.
Qed.

(** X29. What [zdbProvision] returns: a result comes with a nil error,
    names the reservation's namespace and a tcp address on the 0-db port;
    and the call returns neither a result nor an error only when the
    container it looked at shows no public address. *)
Theorem zdbProvision_result_or_error (fuel : nat) (w : World)
    (zdbMap zdbMap' : ZDBMapping) (r : Reservation) (now : Time)
    (res : option zdbResult) (err : option error) (ops : list Op) :
  zdbProvision fuel w zdbMap r now = Some ((res, err), zdbMap', ops) ->
  (forall v, res = Some v ->
     err = None /\ Namespace v = ID r
     /\ exists ip, Addr v = zdbConnectionURL (text ip) zdbPort)
  /\ (res = None -> err = None ->
      exists containerID c ips,
        inspect w containerID = Ok c /\ addrs w (NetNs c) = Ok ips
        /\ Forall (fun a => isPublic a = false) ips).
Proof.
  assert (forall config ip z l,
             createNamespaceAt w config (ID r) ip z l = ((res, err), zdbMap', ops) ->
             (forall v, res = Some v ->
                err = None /\ Namespace v = ID r
                /\ exists ip, Addr v = zdbConnectionURL (text ip) zdbPort)
             /\ (res = None -> err = None -> False)) as Hat.
  { intros config ip z l H.
    pose proof (createNamespaceAt_ret w config (ID r) ip z l) as Hret.
    rewrite H in Hret. simpl in Hret.
    destruct res as [v|], err as [e|]; try done.
    destruct Hret as [Hns Haddr]. split; [|done].
    intros ? [= <-]. eauto. }
  unfold zdbProvision.
  destruct (json_Unmarshal w (Data r)) as [config|];
    [|intros [= <- <- <- <-]; split; [done|discriminate]].
  destruct (Get zdbMap (ID r)) as [cid0 ok]. destruct ok.
  { destruct (lookupIP w cid0 None) as [ip|e] eqn:E; intros [= <- <- <- <-].
    - split; [|done]. intros ? [= <-]. simpl. eauto.
    - split; [done|]. intros _ ->. exists cid0. by eapply lookupIP_nil. }
  destruct (allocate w _ _ _) as [[cid vPath]|];
    [|intros [= <- <- <- <-]; split; [done|discriminate]].
  destruct (inspect w cid) as [c|e] eqn:Hins.
  - destruct (lookupIP w cid _) as [ip|e] eqn:E.
    + intros [= H]. apply Hat in H as [H1 H2]. split; [done|].
      intros ? ?. by destruct H2.
    + intros [= <- <- <- <-]. split; [done|]. intros _ ->.
      exists cid. by eapply lookupIP_nil.
  - destruct (negb (Contains e "not found"));
      [intros [= <- <- <- <-]; split; [done|discriminate]|].
    destruct (createZdbContainer fuel _ cid now) as [[[ip|e'] did]|];
      [| |discriminate].
    + intros [= H]. apply Hat in H as [H1 H2]. split; [done|].
      intros ? ?. by destruct H2.
    + intros [= <- <- <- <-]; split; [done|discriminate].
Qed.

Lemma createZdbContainer_cleans_up_witness :
  flistMount noPublicIP = Ok "/var/cache/flist/zdb"
  /\ createZdbContainer 3601 noPublicIP "zdb-1" 0
     = Some (Err ("failed to get an IP for 0-db container zdb-1: "
                  +:+ "not up public found, waiting"),
             [FlistMount zdbFlistURL; ZDBPrepare; ContainerRun "zdb-1";
              ContainerDelete "zdb-1"; FlistUmount "/var/cache/flist/zdb"])
  /\ last [FlistMount zdbFlistURL; ZDBPrepare; ContainerRun "zdb-1";
           ContainerDelete "zdb-1"; FlistUmount "/var/cache/flist/zdb"]
     = Some (FlistUmount "/var/cache/flist/zdb").
Proof.
  assert (createZdbContainer 3601 noPublicIP "zdb-1" 0
          = Some (Err ("failed to get an IP for 0-db container zdb-1: "
                       +:+ "not up public found, waiting"),
                  [FlistMount zdbFlistURL; ZDBPrepare; ContainerRun "zdb-1";
                   ContainerDelete "zdb-1"; FlistUmount "/var/cache/flist/zdb"]))
    as Hrun by (vm_compute; reflexivity).
  split; [reflexivity|]. split; [exact Hrun|].
  exact (proj1 (proj1 (createZdbContainer_cleans_up 3601 noPublicIP "zdb-1"
                         "/var/cache/flist/zdb" 0 _ _ eq_refl Hrun) eq_refl)).
Defined.

Lemma zdbProvision_result_or_error_witness :
  zdbProvision 0 hidden None ns1 0
  = Some ((None, None), None, [Allocate "ssd" 10737418240 "seq"])
  /\ exists containerID c ips,
      inspect hidden containerID = Ok c /\ addrs hidden (NetNs c) = Ok ips
      /\ Forall (fun a => isPublic a = false) ips.
Proof.
  assert (zdbProvision 0 hidden None ns1 0
          = Some ((None, None), None, [Allocate "ssd" 10737418240 "seq"]))
    as Hrun by (vm_compute; reflexivity).
  split; [exact Hrun|].
  exact (proj2 (zdbProvision_result_or_error 0 hidden None None ns1 0
                  None None _ Hrun) eq_refl eq_refl).
Defined.

End ZdbCleanupFacts.
